(** * Helper routines of the satellite-classification notebooks (helper.py)

    A shallow embedding of the five helper functions of [helper.py] and the
    properties their specification states about them.

    The functions are glue over pandas/geopandas, fiona, numpy, PIL and
    matplotlib.  The embedding keeps the control flow of every function as it
    is written (branches, try/except nesting, loops, order of library calls)
    and models

    - Python exceptions as values of [exn], threaded by the monad [M];
    - mutable Python objects (data frames, iterators) as entries of a store;
    - the file system as a finite map from paths to decoded contents;
    - pandas/numpy indexing ([df[col]], [.isin], [df[mask]], [a[:,:,1:]])
      concretely on lists;
    - the geometric engine (overlay, spatial join, the shapefile writer) as
      the operations of the interface [GeoLib]. *)

From Stdlib Require Import ZArith Lia Ascii.
From stdpp Require Import gmap strings list fin_maps pretty.

Open Scope string_scope.

(** ** Exceptions and the state-and-exception monad *)

(** The subclasses of Python's [Exception] that the modelled calls raise.
    [LibraryError] stands for any error raised from inside a library call
    (topology errors of the overlay, driver errors of the writer, ...). *)
Inductive exn : Type :=
  | KeyError (key : string)
  | IndexError (msg : string)
  | TypeError (msg : string)
  | StopIteration
  | FileNotFoundError (path : string)
  | LibraryError (msg : string).

#[global] Instance exn_eq_dec : EqDecision exn.
Proof. solve_decision. Defined.

(** [str(e)], what [print(e)] shows.  A [KeyError] prints the repr of its
    key, quotes included. *)
Definition exn_str (e : exn) : string :=
  match e with
  | KeyError k => "'" +:+ k +:+ "'"
  | IndexError m => m
  | TypeError m => m
  | StopIteration => ""
  | FileNotFoundError p => p
  | LibraryError m => m
  end.

(** A computation over a state [S] that returns an [A] or raises. *)
Definition M (S A : Type) : Type := S -> S * (exn + A).

Definition ret {S A} (a : A) : M S A := fun s => (s, inr a).

Definition raise {S A} (e : exn) : M S A := fun s => (s, inl e).

Definition bind {S A B} (c : M S A) (k : A -> M S B) : M S B :=
  fun s =>
    match c s with
    | (s', inr a) => k a s'
    | (s', inl e) => (s', inl e)
    end.

(** [try: c except Exception as e: h e].  The handler runs in the state the
    body left behind; nothing is rolled back. *)
Definition try_except {S A} (c : M S A) (h : exn -> M S A) : M S A :=
  fun s =>
    match c s with
    | (s', inr a) => (s', inr a)
    | (s', inl e) => h e s'
    end.

(** A pure library result that may be an exception. *)
Definition lift {S A} (r : exn + A) : M S A := fun s => (s, r).

Declare Scope py_scope.
Delimit Scope py_scope with py.
Notation "'let*' x ':=' c 'in' k" := (bind c (fun x => k))
  (at level 10, x name, c at level 100, k at level 200) : py_scope.
Notation "c1 '>>' c2" := (bind c1 (fun _ => c2))
  (at level 100, c2 at level 200, right associativity) : py_scope.
Open Scope py_scope.

(** ** Attribute values *)

(** A cell of an attribute table.  [VNone] is the missing value. *)
Inductive Value : Type :=
  | VStr (s : string)
  | VInt (z : Z)
  | VNone.

#[global] Instance Value_eq_dec : EqDecision Value.
Proof. solve_decision. Defined.

(** ** Vector datasets: the pandas/geopandas data model *)

Section Vector.

(** The geometry type belongs to the geometry library; the code never looks
    inside a geometry. *)
Context {Geometry : Type}.

(** One feature: its index label, its geometry and its attribute cells. *)
Record Row : Type := mkRow {
  index : Z;
  geometry : Geometry;
  attrs : gmap string Value
}.

(** A GeoDataFrame: coordinate reference system, attribute columns (the
    schema) and the rows in order. *)
Record GeoDataFrame : Type := mkFrame {
  crs : string;
  columns : list string;
  rows : list Row
}.

(** The cell of row [r] in column [c]; a missing cell reads as [VNone]. *)
Definition cell (c : string) (r : Row) : Value :=
  default VNone (attrs r !! c).

(** [df[c]]: the column as a sequence of values, [KeyError] when the frame
    has no such column. *)
Definition getitem (df : GeoDataFrame) (c : string) : exn + list Value :=
  if decide (c ∈ columns df) then inr (map (cell c) (rows df))
  else inl (KeyError c).

(** [series.isin(values)]: the boolean mask of membership. *)
Definition isin (series values : list Value) : list bool :=
  map (fun v => bool_decide (v ∈ values)) series.

(** The rows kept by a boolean mask, position by position. *)
Fixpoint mask_rows (rs : list Row) (mask : list bool) : list Row :=
  match rs, mask with
  | r :: rs', b :: mask' =>
      if b then r :: mask_rows rs' mask' else mask_rows rs' mask'
  | _, _ => []
  end.

(** [df[mask]]: a new frame with the rows whose mask entry is true; the
    reference system and the columns are the frame's. *)
Definition getitem_mask (df : GeoDataFrame) (mask : list bool) : GeoDataFrame :=
  {| crs := crs df; columns := columns df; rows := mask_rows (rows df) mask |}.

(** The selection [df[df[c].isin(values)]] written as a filter. *)
Definition select_isin (c : string) (values : list Value) (df : GeoDataFrame)
  : GeoDataFrame :=
  {| crs := crs df; columns := columns df;
     rows := filter (fun r => cell c r ∈ values) (rows df) |}.

(** ** The world of the vector helpers *)

(** Data frames are Python objects; a name holds a reference to one. *)
Definition loc : Type := positive.

Record World : Type := mkWorld {
  heap : gmap loc GeoDataFrame;      (* live data-frame objects *)
  files : gmap string GeoDataFrame;  (* vector files on disk, decoded *)
  stdout : list string               (* lines printed so far *)
}.

Definition set_heap (h : gmap loc GeoDataFrame) (w : World) : World :=
  {| heap := h; files := files w; stdout := stdout w |}.
Definition set_files (f : gmap string GeoDataFrame) (w : World) : World :=
  {| heap := heap w; files := f; stdout := stdout w |}.
Definition set_stdout (o : list string) (w : World) : World :=
  {| heap := heap w; files := files w; stdout := o |}.

(** [print(s)] *)
Definition print (s : string) : M World unit :=
  fun w => (set_stdout (stdout w ++ [s]) w, inr tt).

(** A fresh object holding [df]. *)
Definition alloc (df : GeoDataFrame) : M World loc :=
  fun w =>
    let l := fresh (dom (heap w)) in
    (set_heap (<[l := df]> (heap w)) w, inr l).

(** The frame a reference denotes; a reference to anything else makes the
    library call that receives it raise. *)
Definition deref (l : loc) : M World GeoDataFrame :=
  fun w =>
    match heap w !! l with
    | Some df => (w, inr df)
    | None => (w, inl (TypeError "not a GeoDataFrame"))
    end.

(** How a call of the file writer ends: the file is written, or the call
    raises and leaves [residue] at the path ([None]: no file there). *)
Inductive write_outcome : Type :=
  | Written
  | WriteFailed (e : exn) (residue : option GeoDataFrame).

(** The operations of geopandas that the helpers call.  They read their
    arguments and return new frames; [to_file_outcome] says how writing a
    frame to a path ends on a given disk. *)
Class GeoLib : Type := {
  overlay_intersection : GeoDataFrame -> GeoDataFrame -> exn + GeoDataFrame;
  sjoin_inner_intersects : GeoDataFrame -> GeoDataFrame -> exn + GeoDataFrame;
  to_file_outcome :
    GeoDataFrame -> string -> gmap string GeoDataFrame -> write_outcome
}.

Context `{!GeoLib}.

(** [gpd.read_file(path)] *)
Definition read_file (path : string) : M World loc :=
  fun w =>
    match files w !! path with
    | Some df => alloc df w
    | None => (w, inl (FileNotFoundError path))
    end.

(** [gpd.overlay(a, b, how='intersection')] *)
Definition gpd_overlay (a b : loc) : M World loc :=
  let* da := deref a in
  let* db := deref b in
  let* r := lift (overlay_intersection da db) in
  alloc r.

(** [gpd.tools.sjoin(a, b, how='inner', op='intersects')] *)
Definition gpd_sjoin (a b : loc) : M World loc :=
  let* da := deref a in
  let* db := deref b in
  let* r := lift (sjoin_inner_intersects da db) in
  alloc r.

(** [df[c]] on a referenced frame *)
Definition df_getitem (l : loc) (c : string) : M World (list Value) :=
  let* df := deref l in
  lift (getitem df c).

(** [df[mask]] on a referenced frame: a new object *)
Definition df_getitem_mask (l : loc) (mask : list bool) : M World loc :=
  let* df := deref l in
  alloc (getitem_mask df mask).

(** What a call of the writer does to the disk. *)
Definition write_disk (df : GeoDataFrame) (path : string)
    (fs : gmap string GeoDataFrame) : gmap string GeoDataFrame * (exn + unit) :=
  match to_file_outcome df path fs with
  | Written => (<[path := df]> fs, inr tt)
  | WriteFailed e (Some d) => (<[path := d]> fs, inl e)
  | WriteFailed e None => (delete path fs, inl e)
  end.

(** [df.to_file(path)] *)
Definition to_file (l : loc) (path : string) : M World unit :=
  let* df := deref l in
  fun w =>
    let r := write_disk df path (files w) in
    (set_files r.1 w, r.2).

(** ** load_shapefile *)

(** [if zipcodes:] is the truth value of a list: false exactly when empty. *)
Definition truthy_list {A} (l : list A) : bool :=
  match l with [] => false | _ => true end.

Definition load_shapefile (path : string) (zipcodes : list Value) : M World loc :=
  let* data := read_file path in
  if truthy_list zipcodes then
    let* col := df_getitem data "ZCTA5CE10" in
    let* data' := df_getitem_mask data (isin col zipcodes) in
    ret data'
  else
    ret data.

(** ** subset_aoi *)

(** Lines 45-59: the body of the outer [try].  [del new] unbinds a local
    name and [osm_id = []] is overwritten before it is read; neither has a
    counterpart here. *)
Definition subset_aoi_try (aoi shape : loc) (save_fp : string)
    (intersect : bool) : M World bool :=
  if intersect then
    print "Intersecting {save_fp} with aoi..." >>
    let* new := gpd_overlay aoi shape in
    print "Dumping to new shapefile to file..." >>
    to_file new save_fp >>
    ret true
  else
    let* temp_shape := gpd_sjoin aoi shape in
    let* osm_id := df_getitem temp_shape "osm_id" in
    let* col := df_getitem shape "osm_id" in
    let* sel := df_getitem_mask shape (isin col osm_id) in
    to_file sel save_fp >>
    ret true.

(** Lines 62-68: the body of the inner [try], run with the caught [e]. *)
Definition subset_aoi_retry (e : exn) (aoi shape : loc) (save_fp : string)
    : M World bool :=
  print (exn_str e) >>
  print "Trying a join method to compare polygon and 1D/dot geometries." >>
  let* temp_shape := gpd_sjoin aoi shape in
  let* osm_id := df_getitem temp_shape "osm_id" in
  let* col := df_getitem shape "osm_id" in
  let* sel := df_getitem_mask shape (isin col osm_id) in
  to_file sel save_fp >>
  ret true.

(** Lines 69-72: the inner handler. *)
Definition subset_aoi_give_up (e : exn) : M World bool :=
  print (exn_str e) >>
  print "Error dumping to file, giving up!" >>
  ret false.

Definition subset_aoi (aoi shape : loc) (save_fp : string) (intersect : bool)
    : M World bool :=
  try_except
    (subset_aoi_try aoi shape save_fp intersect)
    (fun e =>
       try_except
         (subset_aoi_retry e aoi shape save_fp)
         (fun e' => subset_aoi_give_up e')).

(** *** Notions used to state the properties *)

(** What lines 56-58 (and 65-67) select, as a function of the two frames:
    the join, the identifiers among its rows, the rows of [B] that carry
    one of them. *)
Definition join_selection (A B : GeoDataFrame) : exn + GeoDataFrame :=
  match sjoin_inner_intersects A B with
  | inl e => inl e
  | inr J =>
      match getitem J "osm_id" with
      | inl e => inl e
      | inr osm_id =>
          match getitem B "osm_id" with
          | inl e => inl e
          | inr col => inr (getitem_mask B (isin col osm_id))
          end
      end
  end.

(** [c] keeps every live object as it is and touches no file but [fp]. *)
Definition frames {A} (fp : string) (c : M World A) : Prop :=
  forall w,
    heap w ⊆ heap (c w).1 /\
    forall p, p <> fp -> files (c w).1 !! p = files w !! p.

(** [c] neither reads nor writes the output stream. *)
Definition silent {A} (c : M World A) : Prop :=
  forall o w, c (set_stdout o w) = (set_stdout o (c w).1, (c w).2).

(** The two lines the fallback prints before it retries. *)
Definition retry_log (e : exn) : list string :=
  [exn_str e; "Trying a join method to compare polygon and 1D/dot geometries."].

(** The two lines of the intersection branch (line 46 is not an f-string:
    the braces are printed as they stand). *)
Definition intersect_log : list string :=
  ["Intersecting {save_fp} with aoi..."; "Dumping to new shapefile to file..."].

End Vector.

(** ** plot_shapefile *)

Section Plot.

(** The type of the objects being plotted and of a palette colour belong to
    geopandas and seaborn. *)
Context {Layer Color : Type}.

(** [sns.color_palette("Paired")]: the colours of the palette, in order. *)
Variable Paired : list Color.

(** The Python values that occur as plot settings and colour arguments. *)
Inductive PyVal : Type :=
  | PStr (s : string)       (* a str *)
  | PIter (it : nat)        (* a reference to an iterator object *)
  | PColor (c : Color)      (* a colour yielded by a palette iterator *)
  | PFalse.                 (* False *)

(** One [s.plot(ax=ax, color=col, edgecolor=edge)] drawn on the axes. *)
Record Artist : Type := mkArtist {
  art_layer : Layer;
  art_color : PyVal;
  art_edgecolor : PyVal
}.

Record PlotWorld : Type := mkPlotWorld {
  iterators : gmap nat (list Color);  (* iterator objects: items still to come *)
  axes : list Artist;                 (* the axes of the current figure *)
  grid : bool;                        (* grid lines of the axes *)
  style : string;                     (* the process-wide seaborn style *)
  saved : gmap string (string * list Artist)  (* figures saved: format, content *)
}.

(** [iter(l)]: a new iterator object over [l]. *)
Definition new_iter (l : list Color) : M PlotWorld PyVal :=
  fun w =>
    let it := fresh (dom (iterators w)) in
    ({| iterators := <[it := l]> (iterators w); axes := axes w;
        grid := grid w; style := style w; saved := saved w |},
     inr (PIter it)).

(** [next(v)]: the next item of an iterator, [StopIteration] when it is
    exhausted, [TypeError] when [v] is not an iterator. *)
Definition next (v : PyVal) : M PlotWorld PyVal :=
  fun w =>
    match v with
    | PIter it =>
        match iterators w !! it with
        | Some (c :: rest) =>
            ({| iterators := <[it := rest]> (iterators w); axes := axes w;
                grid := grid w; style := style w; saved := saved w |},
             inr (PColor c))
        | Some [] => (w, inl StopIteration)
        | None => (w, inl (TypeError "object is not an iterator"))
        end
    | _ => (w, inl (TypeError "object is not an iterator"))
    end.

(** [d[k]] on a dict *)
Definition dict_get (d : gmap string PyVal) (k : string) : M PlotWorld PyVal :=
  match d !! k with
  | Some v => ret v
  | None => raise (KeyError k)
  end.

(** [type(v) != str] *)
Definition is_not_str (v : PyVal) : bool :=
  match v with PStr _ => false | _ => true end.

(** Truth value of a setting: the empty string and [False] are false. *)
Definition truthy (v : PyVal) : bool :=
  match v with
  | PStr "" => false
  | PFalse => false
  | _ => true
  end.

(** [plt.subplots(figsize=(40,40))]: a new figure with empty axes. *)
Definition subplots : M PlotWorld unit :=
  fun w =>
    ({| iterators := iterators w; axes := []; grid := true;
        style := style w; saved := saved w |}, inr tt).

(** [s.plot(ax=ax, color=col, edgecolor=edge)] *)
Definition plot (s : Layer) (col edge : PyVal) : M PlotWorld unit :=
  fun w =>
    ({| iterators := iterators w;
        axes := axes w ++ [mkArtist s col edge];
        grid := grid w; style := style w; saved := saved w |}, inr tt).

(** [ax.grid(False)] *)
Definition ax_grid (b : bool) : M PlotWorld unit :=
  fun w =>
    ({| iterators := iterators w; axes := axes w; grid := b;
        style := style w; saved := saved w |}, inr tt).

(** [sns.set_style(name)] *)
Definition set_style (name : string) : M PlotWorld unit :=
  fun w =>
    ({| iterators := iterators w; axes := axes w; grid := grid w;
        style := name; saved := saved w |}, inr tt).

(** [f.savefig(path, format=fmt)] *)
Definition savefig (path fmt : PyVal) : M PlotWorld unit :=
  fun w =>
    match path, fmt with
    | PStr p, PStr f =>
        ({| iterators := iterators w; axes := axes w; grid := grid w;
            style := style w; saved := <[p := (f, axes w)]> (saved w) |},
         inr tt)
    | _, _ => (w, inl (TypeError "savefig: path and format must be str"))
    end.

(** Lines 103-110: the colour of the next layer from one setting. *)
Definition pick (default : gmap string PyVal) (k : string) : M PlotWorld PyVal :=
  let* v := dict_get default k in
  if is_not_str v then
    let* v' := dict_get default k in
    next v'
  else
    dict_get default k.

(** Lines 101-113: the loop over the layers, with its counter [i]. *)
Fixpoint plot_loop (default : gmap string PyVal) (shapefiles : list Layer)
    (i : nat) : M PlotWorld nat :=
  match shapefiles with
  | [] => ret i
  | s :: rest =>
      let* edge := pick default "edgecolor" in
      let* col := pick default "color" in
      plot s col edge >>
      plot_loop default rest (i + 1)
  end.

(** Lines 92-94: [for k,v in graph_settings.items(): default[k] = v].
    [None] is the default argument [False]. *)
Definition merge_settings (default : gmap string PyVal)
    (graph_settings : option (list (string * PyVal))) : gmap string PyVal :=
  match graph_settings with
  | Some (kv :: kvs) =>
      foldl (fun d '(k, v) => <[k := v]> d) default (kv :: kvs)
  | _ => default
  end.

Definition plot_shapefile (shapefiles : list Layer)
    (graph_settings : option (list (string * PyVal))) : M PlotWorld unit :=
  let* e := new_iter Paired in
  let* c := new_iter Paired in
  let default0 : gmap string PyVal :=
    <["color" := c]> (<["edgecolor" := e]>
      (<["format" := PStr "png"]> (<["save" := PStr ""]> ∅))) in
  let default := merge_settings default0 graph_settings in
  subplots >>
  let* i := plot_loop default shapefiles 0 in
  ax_grid false >>
  set_style "whitegrid" >>
  let* save := dict_get default "save" in
  if truthy save then
    let* save' := dict_get default "save" in
    let* fmt := dict_get default "format" in
    savefig save' fmt
  else
    ret tt.

(** *** Notions used to state the properties *)

(** The artist of a layer drawn with one palette colour for fill and edge. *)
Definition paired_artist (s : Layer) (col : Color) : Artist :=
  mkArtist s (PColor col) (PColor col).

(** The dict of lines 87-90, given the two iterators. *)
Definition default_settings (e c : PyVal) : gmap string PyVal :=
  <["color" := c]> (<["edgecolor" := e]>
    (<["format" := PStr "png"]> (<["save" := PStr ""]> ∅))).

(** What the caller supplied under a key: the last binding of the key in
    [graph_settings], if there is one. *)
Definition supplied (graph_settings : option (list (string * PyVal)))
    (k : string) : option PyVal :=
  match graph_settings with
  | Some kvs =>
      foldl (fun (d : gmap string PyVal) '(k, v) => <[k := v]> d) ∅ kvs !! k
  | None => None
  end.

(** Lines 96-117: everything after the settings are merged. *)
Definition plot_body (default : gmap string PyVal) (shapefiles : list Layer)
    : M PlotWorld unit :=
  subplots >>
  let* i := plot_loop default shapefiles 0 in
  ax_grid false >>
  set_style "whitegrid" >>
  let* save := dict_get default "save" in
  if truthy save then
    let* save' := dict_get default "save" in
    let* fmt := dict_get default "format" in
    savefig save' fmt
  else
    ret tt.

(** The artists drawn when edge and fill draw from one shared iterator:
    each layer takes two items, the first for its edge, the second for its
    fill. *)
Fixpoint alternating (shapefiles : list Layer) (l : list Color) : list Artist :=
  match shapefiles, l with
  | s :: rest, e :: c :: l' =>
      mkArtist s (PColor c) (PColor e) :: alternating rest l'
  | _, _ => []
  end.

End Plot.

(** ** peel_geodatabase *)

(** Whether a path has a directory separator. *)
Fixpoint has_slash (p : string) : bool :=
  match p with
  | "" => false
  | String c rest => if decide (c = "/"%char) then true else has_slash rest
  end.

(** The directory part of a path: what stands before its last separator
    (empty for a bare file name). *)
Fixpoint dirname (p : string) : string :=
  match p with
  | "" => ""
  | String c rest => if has_slash rest then String c (dirname rest) else ""
  end.

Section Geodatabase.

Context {Geom : Type}.

(** A fiona feature: an optional geometry and its ordered properties. *)
Record Feature : Type := mkFeature {
  feat_id : string;
  feat_geometry : option Geom;
  properties : list (string * Value)
}.

(** A fiona schema: the geometry type and the typed property names. *)
Record Schema : Type := mkSchema {
  schema_geometry : string;
  schema_properties : list (string * string)
}.

(** An open fiona collection: reference system, schema and features. *)
Record Collection : Type := mkCollection {
  coll_crs : string;
  coll_schema : Schema;
  coll_features : list Feature
}.

(** What a path on disk holds. *)
Inductive DiskFile : Type :=
  | GdbFile (layers : list (string * Collection))   (* a geodatabase *)
  | VectorFile (driver : string) (c : Collection)   (* a standalone vector file *)
  | TextFile (content : string).                    (* a text file *)

Record Disk : Type := mkDisk {
  disk : gmap string DiskFile;   (* the files, by path *)
  dirs : gset string;            (* the directories that exist *)
  printed : list string          (* lines printed so far *)
}.

(** A file can be created at a path only inside a directory that exists;
    a bare file name lies in the working directory.  Nothing in
    [peel_geodatabase] creates a directory. *)
Definition can_create (path : string) (d : Disk) : bool :=
  bool_decide (dirname path = "" \/ dirname path ∈ dirs d).

(** [pd.DataFrame(features).to_csv()]: the serializer of the tabular
    library, applied to the attribute rows in order. *)
Variable to_csv : list (list (string * Value)) -> string.

Definition datasrc_path : string := "./data/2016blockgroupca.gdb".
Definition geometry_layer : string := "ACS_2016_5YR_BG_06_CALIFORNIA".

Definition shp_path (layer_name : string) : string :=
  "./data/ACS2016/" +:+ layer_name +:+ ".shp".
Definition csv_path (layer_name : string) : string :=
  "./data/ACS2016/" +:+ layer_name +:+ ".csv".

(** The first layer of that name in a geodatabase. *)
Fixpoint find_layer (layers : list (string * Collection)) (name : string)
    : option Collection :=
  match layers with
  | [] => None
  | (n, c) :: rest => if decide (n = name) then Some c else find_layer rest name
  end.

Definition gdb_print (s : string) : M Disk unit :=
  fun d =>
    ({| disk := disk d; dirs := dirs d; printed := printed d ++ [s] |},
     inr tt).

(** [fiona.listlayers(path)] *)
Definition listlayers (path : string) : M Disk (list string) :=
  fun d =>
    match disk d !! path with
    | Some (GdbFile layers) => (d, inr (map fst layers))
    | Some _ => (d, inl (LibraryError "not a layered data source"))
    | None => (d, inl (FileNotFoundError path))
    end.

(** [fiona.open(path=.., layer=.., driver=..)] for reading. *)
Definition fiona_open (path layer : string) (driver : option string)
    : M Disk Collection :=
  fun d =>
    match disk d !! path with
    | Some (GdbFile layers) =>
        match find_layer layers layer with
        | Some c => (d, inr c)
        | None => (d, inl (LibraryError "no such layer"))
        end
    | Some _ => (d, inl (LibraryError "not a layered data source"))
    | None => (d, inl (FileNotFoundError path))
    end.

(** [fiona.open(path, 'w', driver=.., crs=.., schema=..)]: a new, empty
    vector file that replaces whatever the path held; the driver fails when
    the directory of the path does not exist. *)
Definition fiona_open_w (path driver crs : string) (schema : Schema)
    : M Disk unit :=
  fun d =>
    if can_create path d then
      ({| disk := <[path := VectorFile driver (mkCollection crs schema [])]>
                    (disk d);
          dirs := dirs d; printed := printed d |}, inr tt)
    else (d, inl (LibraryError "driver failed to create the file")).

(** [sink.write(feature)]: append the feature to the file behind the sink. *)
Definition sink_write (path : string) (f : Feature) : M Disk unit :=
  fun d =>
    match disk d !! path with
    | Some (VectorFile drv c) =>
        ({| disk := <[path := VectorFile drv
                       (mkCollection (coll_crs c) (coll_schema c)
                                     (coll_features c ++ [f]))]> (disk d);
            dirs := dirs d; printed := printed d |}, inr tt)
    | _ => (d, inl (LibraryError "sink is not open"))
    end.

(** [with open(path, 'w') as f: f.write(content)]: [open] raises
    [FileNotFoundError] when the directory of the path does not exist. *)
Definition write_text (path content : string) : M Disk unit :=
  fun d =>
    if can_create path d then
      ({| disk := <[path := TextFile content]> (disk d);
          dirs := dirs d; printed := printed d |}, inr tt)
    else (d, inl (FileNotFoundError path)).

(** Lines 147-148: [for feature in collection: sink.write(feature)]. *)
Fixpoint copy_features (path : string) (fs : list Feature) : M Disk unit :=
  match fs with
  | [] => ret tt
  | f :: rest => sink_write path f >> copy_features path rest
  end.

(** Lines 151-152: [for feature in collection:
    features.append(feature['properties'])]. *)
Fixpoint collect_properties (fs : list Feature)
    (features : list (list (string * Value))) : list (list (string * Value)) :=
  match fs with
  | [] => features
  | f :: rest => collect_properties rest (features ++ [properties f])
  end.

(** Lines 130-155: the body of the loop for one layer. *)
Definition peel_layer (layer_name : string) : M Disk unit :=
  let features : list (list (string * Value)) := [] in
  let driver :=
    if decide (layer_name = geometry_layer) then Some "OpenFileGDB" else None in
  let* collection := fiona_open datasrc_path layer_name driver in
  if decide (layer_name = geometry_layer) then
    gdb_print ("Dumping " +:+ layer_name +:+ " to shapefile") >>
    fiona_open_w (shp_path layer_name) "ESRI Shapefile"
      (coll_crs collection) (coll_schema collection) >>
    copy_features (shp_path layer_name) (coll_features collection)
  else
    gdb_print ("Dumping " +:+ layer_name +:+ " to csv") >>
    let df := collect_properties (coll_features collection) features in
    write_text (csv_path layer_name) (to_csv df).

Fixpoint peel_layers (layers : list string) : M Disk unit :=
  match layers with
  | [] => ret tt
  | layer_name :: rest => peel_layer layer_name >> peel_layers rest
  end.

Definition peel_geodatabase : M Disk unit :=
  let* layers := listlayers datasrc_path in
  peel_layers layers.

(** *** Notions used to state the properties *)

(** The one path a layer is exported to, and what the export holds. *)
Definition output_path (layer_name : string) : string :=
  if decide (layer_name = geometry_layer) then shp_path layer_name
  else csv_path layer_name.

Definition output_file (layer_name : string) (c : Collection) : DiskFile :=
  if decide (layer_name = geometry_layer) then VectorFile "ESRI Shapefile" c
  else TextFile (to_csv (map properties (coll_features c))).

(** The progress line printed for a layer (lines 142 and 150). *)
Definition progress_line (layer_name : string) : string :=
  if decide (layer_name = geometry_layer)
  then "Dumping " +:+ layer_name +:+ " to shapefile"
  else "Dumping " +:+ layer_name +:+ " to csv".

(** The directory of every export of the geodatabase [g] exists. *)
Definition exports_creatable (g : list (string * Collection)) (d : Disk)
    : Prop :=
  forall n, n ∈ map fst g -> can_create (output_path n) d = true.

(** The directory all exports of plainly named layers go to. *)
Definition output_dir : string := "./data/ACS2016".

End Geodatabase.

(** ** show_image *)

(** An image decoded by [np.array(Image.open(fp))]: two-dimensional for a
    single-band image, (row, column, band) otherwise.  Pillow's modes have
    at most four bands, so the three-dimensional arrays that a file decodes
    to have two, three or four. *)
Inductive ndarray : Type :=
  | Arr2 (a : list (list Z))
  | Arr3 (a : list (list (list Z))).

(** The image files read and the figures saved are kept apart: a call whose
    save path names an image file is not covered by this model. *)
Record Screen : Type := mkScreen {
  images : gmap string ndarray;            (* image files on disk, decoded *)
  canvas : option ndarray;                 (* what the current figure shows *)
  figures : gmap string (option ndarray)   (* figures saved, by path *)
}.

(** [Image.open(fp)] followed by [np.array(im)]: the screen holds, by path,
    the array each image file decodes to.  An array of five bands or more
    is not the decoding of any file, since Pillow's modes stop at four. *)
Definition image_open (fp : string) : M Screen ndarray :=
  fun s =>
    match images s !! fp with
    | Some a => (s, inr a)
    | None => (s, inl (FileNotFoundError fp))
    end.

(** [im[:,:,k:]]: every row, every column, the bands from [k] on. *)
Definition bands_from (k : nat) (im : ndarray) : exn + ndarray :=
  match im with
  | Arr3 a => inr (Arr3 (map (map (drop k)) a))
  | Arr2 _ => inl (IndexError "too many indices for array")
  end.

(** [im[:,:,:k]]: every row, every column, the bands before [k]. *)
Definition bands_to (k : nat) (im : ndarray) : exn + ndarray :=
  match im with
  | Arr3 a => inr (Arr3 (map (map (take k)) a))
  | Arr2 _ => inl (IndexError "too many indices for array")
  end.

(** [im[:,:,:]] *)
Definition bands_all (im : ndarray) : exn + ndarray :=
  match im with
  | Arr3 a => inr (Arr3 a)
  | Arr2 _ => inl (IndexError "too many indices for array")
  end.

(** Lines 173-176: the band selection. *)
Definition select_bands (infrared : bool) (im : ndarray) : exn + ndarray :=
  if infrared then bands_from 1 im else bands_to 3 im.

(** [plt.imshow(a)] accepts (M,N), (M,N,3) and (M,N,4) arrays. *)
Definition displayable (im : ndarray) : bool :=
  match im with
  | Arr2 _ => true
  | Arr3 a =>
      forallb (forallb (fun px =>
        (length px =? 3)%nat || (length px =? 4)%nat)) a
  end.

Definition imshow (im : ndarray) : M Screen unit :=
  fun s =>
    if displayable im then
      ({| images := images s; canvas := Some im; figures := figures s |},
       inr tt)
    else (s, inl (TypeError "Invalid shape for image data")).

(** [plt.subplots(figsize=(40,40))]: a new, empty current figure. *)
Definition new_figure : M Screen unit :=
  fun s =>
    ({| images := images s; canvas := None; figures := figures s |}, inr tt).

(** [f.savefig(save_path)] *)
Definition savefig_image (save_path : string) : M Screen unit :=
  fun s =>
    ({| images := images s; canvas := canvas s;
        figures := <[save_path := canvas s]> (figures s) |}, inr tt).

Definition show_image (fp save_path : string) (infrared : bool) : M Screen unit :=
  let* im := image_open fp in
  let* im := lift (select_bands infrared im) in
  new_figure >>
  let* view := lift (bands_all im) in
  imshow view >>
  if decide (save_path = "") then ret tt
  else savefig_image save_path.

(** [a[i,j,k]] *)
Definition pixel (a : list (list (list Z))) (i j k : nat) : option Z :=
  row ← a !! i; px ← row !! j; px !! k.

(** The array has shape ([h], [w], [n]). *)
Definition has_shape (a : list (list (list Z))) (h w n : nat) : Prop :=
  length a = h /\
  Forall (fun row => length row = w /\ Forall (fun px => length px = n) row) a.

(** ** A reference instance of the library interface

    Geometries are closed intervals of the integer line; a degenerate
    interval plays the part of a point geometry, which the overlay rejects
    as the polygon overlay of geopandas does.  The instance is used to run
    the helpers on concrete data. *)

Module Ref.

Definition Interval : Type := (Z * Z)%type.

Definition intersects (a b : Interval) : bool :=
  (a.1 <=? b.2)%Z && (b.1 <=? a.2)%Z.

Definition is_point (a : Interval) : bool := (a.1 =? a.2)%Z.

(** The name a column gets in a join: suffixed when both sides have it. *)
Definition joined_name (other : list string) (suffix c : string) : string :=
  if decide (c ∈ other) then c +:+ suffix else c.

Definition join_rows (A B : @GeoDataFrame Interval) (a b : @Row Interval)
    : gmap string Value :=
  list_to_map
    (map (fun c => (joined_name (columns B) "_left" c, cell c a)) (columns A)
     ++ ("index_right", VInt (index b))
     :: map (fun c => (joined_name (columns A) "_right" c, cell c b)) (columns B)).

Definition sjoin (A B : @GeoDataFrame Interval) : exn + @GeoDataFrame Interval :=
  inr {| crs := crs A;
         columns :=
           map (joined_name (columns B) "_left") (columns A)
           ++ "index_right"
           :: map (joined_name (columns A) "_right") (columns B);
         rows :=
           a ← rows A;
           b ← filter (fun b => intersects (geometry a) (geometry b)) (rows B);
           [mkRow (index a) (geometry a) (join_rows A B a b)] |}.

Definition overlay (A B : @GeoDataFrame Interval) : exn + @GeoDataFrame Interval :=
  if existsb (fun b => is_point (geometry b)) (rows B) then
    inl (LibraryError "overlay: only polygon geometries are supported")
  else
    inr {| crs := crs A;
           columns := columns A ++ columns B;
           rows :=
             a ← rows A;
             b ← filter (fun b => intersects (geometry a) (geometry b)) (rows B);
             [mkRow (index a)
                    (Z.max (geometry a).1 (geometry b).1,
                     Z.min (geometry a).2 (geometry b).2)
                    (attrs a ∪ attrs b)] |}.

(** The writer fails on an empty path and, as the shapefile writer of
    geopandas does, on a frame without rows; it then leaves the disk as it
    was. *)
Definition write (df : @GeoDataFrame Interval) (path : string)
    (fs : gmap string (@GeoDataFrame Interval)) : @write_outcome Interval :=
  if decide (path = "") then WriteFailed (FileNotFoundError path) (fs !! path)
  else
    match rows df with
    | [] =>
        WriteFailed (LibraryError "Cannot write empty DataFrame to file.")
                    (fs !! path)
    | _ => Written
    end.

#[global] Instance lib : @GeoLib Interval :=
  {| overlay_intersection := overlay;
     sjoin_inner_intersects := sjoin;
     to_file_outcome := write |}.

(** An area of interest and three datasets to trim to it. *)
Definition aoi_frame : @GeoDataFrame Interval :=
  mkFrame "EPSG:4326" ["name"]
    [mkRow 0 (0, 10)%Z {["name" := VStr "downtown"]}].

Definition roads : @GeoDataFrame Interval :=
  mkFrame "EPSG:4326" ["osm_id"; "kind"]
    [mkRow 0 (5, 7)%Z {["osm_id" := VStr "a"; "kind" := VStr "road"]};
     mkRow 1 (20, 30)%Z {["osm_id" := VStr "b"; "kind" := VStr "road"]};
     mkRow 2 (8, 12)%Z {["osm_id" := VStr "c"; "kind" := VStr "path"]}].

Definition poi : @GeoDataFrame Interval :=
  mkFrame "EPSG:4326" ["osm_id"]
    [mkRow 0 (3, 3)%Z {["osm_id" := VStr "p"]};
     mkRow 1 (40, 40)%Z {["osm_id" := VStr "q"]}].

Definition parcels : @GeoDataFrame Interval :=
  mkFrame "EPSG:4326" ["apn"]
    [mkRow 0 (1, 2)%Z {["apn" := VStr "001"]}].

Definition zcta : @GeoDataFrame Interval :=
  mkFrame "EPSG:4269" ["ZCTA5CE10"]
    [mkRow 0 (0, 1)%Z {["ZCTA5CE10" := VStr "94103"]};
     mkRow 1 (1, 2)%Z {["ZCTA5CE10" := VStr "10001"]};
     mkRow 2 (2, 3)%Z {["ZCTA5CE10" := VStr "94110"]}].

(** Objects 1..4 are the frames above; the disk holds two vector files. *)
Definition world0 : @World Interval :=
  {| heap := {[ 1%positive := aoi_frame; 2%positive := roads;
                3%positive := poi; 4%positive := parcels ]};
     files := {[ "zcta.shp" := zcta; "parcels.shp" := parcels ]};
     stdout := [] |}.

(** The twelve colours of seaborn's "Paired" palette. *)
Definition Paired12 : list string :=
  ["#a6cee3"; "#1f78b4"; "#b2df8a"; "#33a02c"; "#fb9a99"; "#e31a1c";
   "#fdbf6f"; "#ff7f00"; "#cab2d6"; "#6a3d9a"; "#ffff99"; "#b15928"].

Definition plot0 : @PlotWorld nat string :=
  {| iterators := ∅; axes := []; grid := true; style := "darkgrid";
     saved := ∅ |}.

(** A geodatabase with the block-group geometry layer and one table. *)
Definition value_str (v : Value) : string :=
  match v with
  | VStr s => s
  | VInt z => pretty z
  | VNone => ""
  end.

Definition to_csv (table : list (list (string * Value))) : string :=
  String.concat ";" (map (fun r => String.concat "," (map (fun kv => value_str kv.2) r)) table).

Definition bg_layer : @Collection Interval :=
  mkCollection "EPSG:4269" (mkSchema "Polygon" [("GEOID", "str")])
    [mkFeature "1" (Some (0, 4)%Z) [("GEOID", VStr "060014001001")];
     mkFeature "2" (Some (4, 9)%Z) [("GEOID", VStr "060014001002")]].

Definition income_layer : @Collection Interval :=
  mkCollection "" (mkSchema "None" [("GEOID", "str"); ("B19013e1", "int")])
    [mkFeature "1" None [("GEOID", VStr "060014001001"); ("B19013e1", VInt 81250)];
     mkFeature "2" None [("GEOID", VStr "060014001002"); ("B19013e1", VInt 64000)]].

Definition disk0 : @Disk Interval :=
  {| disk := {[ "./data/2016blockgroupca.gdb" :=
                  GdbFile [("X19_INCOME", income_layer);
                           ("ACS_2016_5YR_BG_06_CALIFORNIA", bg_layer)] ]};
     dirs := {[ "./data"; "./data/ACS2016" ]};
     printed := [] |}.

(** The same disk before anyone has made the output directory. *)
Definition disk_without_output_dir : @Disk Interval :=
  {| disk := disk disk0; dirs := {[ "./data" ]}; printed := [] |}.

(** A 1x2 image with four bands and a 1x1 image with three. *)
Definition rgbn : list (list (list Z)) :=
  [[[10; 20; 30; 40]; [11; 21; 31; 41]]]%Z.

Definition rgb : list (list (list Z)) := [[[1; 2; 3]]]%Z.

Definition screen0 : Screen :=
  {| images := {[ "scene.tif" := Arr3 rgbn; "rgb.png" := Arr3 rgb ]};
     canvas := None; figures := ∅ |}.

(** A dataset away from the area of interest, a single-band image, and a
    world and a screen that hold them. *)
Definition far_roads : @GeoDataFrame Interval :=
  mkFrame "EPSG:4326" ["osm_id"]
    [mkRow 0 (20, 30)%Z {["osm_id" := VStr "z"]}].

Definition world1 : @World Interval :=
  {| heap := {[ 1%positive := aoi_frame; 2%positive := far_roads ]};
     files := ∅; stdout := [] |}.

Definition gray : list (list Z) := [[7; 8]]%Z.

Definition screen1 : Screen :=
  {| images := {[ "gray.png" := Arr2 gray; "rgb.png" := Arr3 rgb;
                  "scene.tif" := Arr3 rgbn ]};
     canvas := None; figures := ∅ |}.

(** A plot world in which the caller holds an iterator of four colours. *)
Definition plot1 : @PlotWorld nat string :=
  {| iterators := {[ 7 := ["red"; "green"; "blue"; "black"] ]};
     axes := []; grid := true; style := "darkgrid"; saved := ∅ |}.

End Ref.

(** * Properties *)

(** ** The monad *)

Lemma bind_inr {S A B} (c : M S A) (k : A -> M S B) s s' b :
  bind c k s = (s', inr b) ->
  exists s1 a, c s = (s1, inr a) /\ k a s1 = (s', inr b).
Proof.
  unfold bind. destruct (c s) as [s1 [e|a]]; intros Hk; [discriminate|].
  exists s1, a. split; [reflexivity|exact Hk].
Qed.

Lemma bind_ok {S A B} (c : M S A) (k : A -> M S B) s s1 a :
  c s = (s1, inr a) -> bind c k s = k a s1.
Proof. unfold bind. by intros ->. Qed.

Lemma bind_step {S A B} (c : M S A) (k : A -> M S B) s s1 r :
  c s = (s1, r) ->
  bind c k s = match r with inl e => (s1, inl e) | inr a => k a s1 end.
Proof. unfold bind. by intros ->. Qed.

Lemma bind_err {S A B} (c : M S A) (k : A -> M S B) s s1 e :
  c s = (s1, inl e) -> bind c k s = (s1, inl e).
Proof. unfold bind. by intros ->. Qed.

(** ** Vector datasets *)

Section VectorFacts.

Context {Geometry : Type} `{!@GeoLib Geometry}.

Implicit Types (w : @World Geometry) (df : @GeoDataFrame Geometry).

(** Indexing with the mask of [isin] keeps the rows whose cell is a member,
    in order. *)
Lemma mask_rows_isin (c : string) (values : list Value) (rs : list (@Row Geometry)) :
  mask_rows rs (isin (map (cell c) rs) values)
  = filter (fun r => cell c r ∈ values) rs.
Proof.
  induction rs as [|r rs IH]; [done|].
  cbn [map isin mask_rows]. fold (isin (map (cell c) rs) values).
  rewrite filter_cons, IH.
  unfold bool_decide. by destruct (decide_rel elem_of (cell c r) values).
Qed.

Lemma getitem_inr df c col :
  getitem df c = inr col -> c ∈ columns df /\ col = map (cell c) (rows df).
Proof.
  unfold getitem. destruct (decide (c ∈ columns df)); intros Hg; [|discriminate].
  split; [done|congruence].
Qed.

Lemma getitem_missing df c :
  c ∉ columns df -> getitem df c = inl (KeyError c).
Proof. unfold getitem. intros Hc. by destruct (decide (c ∈ columns df)). Qed.

Lemma getitem_mask_isin df c col values :
  getitem df c = inr col ->
  getitem_mask df (isin col values) = select_isin c values df.
Proof.
  intros [_ ->]%getitem_inr. unfold getitem_mask, select_isin.
  by rewrite mask_rows_isin.
Qed.

(** A selection is a sublist of the frame's rows: whole rows, in order. *)
Lemma select_isin_sublist c values df :
  sublist (rows (select_isin c values df)) (rows df).
Proof. apply sublist_filter. Qed.

(** *** What a computation leaves alone *)

#[local] Abbreviation frames := (@frames Geometry _).

Lemma frames_ret {A} fp (a : A) : frames fp (ret a).
Proof. intros w. by cbn. Qed.

Lemma frames_lift {A} fp (r : exn + A) : frames fp (lift r).
Proof. intros w. by cbn. Qed.

Lemma frames_print fp s : frames fp (print s).
Proof. intros w. by cbn. Qed.

Lemma frames_deref fp l : frames fp (deref l).
Proof. intros w. unfold deref. by destruct (heap w !! l). Qed.

Lemma frames_alloc fp df : frames fp (alloc df).
Proof.
  intros w. cbn. split; [|done].
  apply insert_subseteq, not_elem_of_dom, is_fresh.
Qed.

Lemma frames_bind {A B} fp (c : M _ A) (k : A -> M _ B) :
  frames fp c -> (forall a, frames fp (k a)) -> frames fp (bind c k).
Proof.
  intros Hc Hk w. unfold bind. specialize (Hc w).
  destruct (c w) as [w1 [e|a]]; [done|].
  destruct Hc as [Hh Hf]. destruct (Hk a w1) as [Hh' Hf']. cbn in *.
  split; [by etrans|]. intros p Hp. by rewrite Hf', Hf.
Qed.

Lemma frames_try_except {A} fp (c : M _ A) (h : exn -> M _ A) :
  frames fp c -> (forall e, frames fp (h e)) -> frames fp (try_except c h).
Proof.
  intros Hc Hh w. unfold try_except. specialize (Hc w).
  destruct (c w) as [w1 [e|a]]; [|done].
  destruct Hc as [Hh1 Hf]. destruct (Hh e w1) as [Hh' Hf']. cbn in *.
  split; [by etrans|]. intros p Hp. by rewrite Hf', Hf.
Qed.

Lemma frames_to_file fp l : frames fp (to_file l fp).
Proof.
  apply frames_bind; [apply frames_deref|]. intros df w.
  unfold write_disk.
  destruct (to_file_outcome df fp (files w)) as [|e [d|]]; cbn;
    (split; [done|]); intros p Hp.
  - by rewrite lookup_insert_ne.
  - by rewrite lookup_insert_ne.
  - by rewrite lookup_delete_ne.
Qed.

Lemma frames_gpd_overlay fp a b : frames fp (gpd_overlay a b).
Proof.
  repeat (apply frames_bind; [first [apply frames_deref|apply frames_lift]|intros ?]).
  apply frames_alloc.
Qed.

Lemma frames_gpd_sjoin fp a b : frames fp (gpd_sjoin a b).
Proof.
  repeat (apply frames_bind; [first [apply frames_deref|apply frames_lift]|intros ?]).
  apply frames_alloc.
Qed.

Lemma frames_df_getitem fp l c : frames fp (df_getitem l c).
Proof. apply frames_bind; [apply frames_deref|intros ?; apply frames_lift]. Qed.

Lemma frames_df_getitem_mask fp l m : frames fp (df_getitem_mask l m).
Proof. apply frames_bind; [apply frames_deref|intros ?; apply frames_alloc]. Qed.

Create HintDb frames.
#[local] Hint Resolve frames_ret frames_lift frames_print frames_deref
  frames_alloc frames_to_file frames_gpd_overlay frames_gpd_sjoin
  frames_df_getitem frames_df_getitem_mask : frames.

Ltac frames_steps :=
  repeat first
    [ apply frames_bind; [solve [eauto with frames]|intros ?]
    | solve [eauto with frames] ].

Lemma frames_subset_aoi_try aoi shape fp intersect :
  frames fp (subset_aoi_try aoi shape fp intersect).
Proof. unfold subset_aoi_try. destruct intersect; frames_steps. Qed.

Lemma frames_subset_aoi_retry e aoi shape fp :
  frames fp (subset_aoi_retry e aoi shape fp).
Proof. unfold subset_aoi_retry. frames_steps. Qed.

Lemma frames_subset_aoi aoi shape fp intersect :
  frames fp (subset_aoi aoi shape fp intersect).
Proof.
  unfold subset_aoi. apply frames_try_except.
  - apply frames_subset_aoi_try.
  - intros e. apply frames_try_except; [apply frames_subset_aoi_retry|].
    intros e'. unfold subset_aoi_give_up. frames_steps.
Qed.


(** *** The join strategy, step by step *)

Lemma deref_some w l df : heap w !! l = Some df -> deref l w = (w, inr df).
Proof. unfold deref. by intros ->. Qed.

Lemma fresh_ne (h : gmap loc (@GeoDataFrame Geometry)) l df :
  h !! l = Some df -> fresh (dom h) <> l.
Proof.
  intros Hl Heq. apply (is_fresh (dom h)). rewrite Heq.
  apply elem_of_dom. by exists df.
Qed.

Lemma gpd_sjoin_spec a b w (A B : @GeoDataFrame Geometry) :
  heap w !! a = Some A ->
  heap w !! b = Some B ->
  gpd_sjoin a b w =
    match sjoin_inner_intersects A B with
    | inl e => (w, inl e)
    | inr J =>
        (set_heap (<[fresh (dom (heap w)) := J]> (heap w)) w,
         inr (fresh (dom (heap w))))
    end.
Proof.
  intros HA HB. unfold gpd_sjoin.
  rewrite (bind_ok _ _ _ _ _ (deref_some _ _ _ HA)).
  rewrite (bind_ok _ _ _ _ _ (deref_some _ _ _ HB)).
  unfold bind, lift. by destruct (sjoin_inner_intersects A B).
Qed.

Lemma df_getitem_spec l c w df :
  heap w !! l = Some df -> df_getitem l c w = (w, getitem df c).
Proof.
  intros Hl. unfold df_getitem.
  by rewrite (bind_ok _ _ _ _ _ (deref_some _ _ _ Hl)).
Qed.

Lemma df_getitem_mask_spec l m w df :
  heap w !! l = Some df ->
  df_getitem_mask l m w =
    (set_heap (<[fresh (dom (heap w)) := getitem_mask df m]> (heap w)) w,
     inr (fresh (dom (heap w)))).
Proof.
  intros Hl. unfold df_getitem_mask.
  by rewrite (bind_ok _ _ _ _ _ (deref_some _ _ _ Hl)).
Qed.

Lemma to_file_spec l p w df :
  heap w !! l = Some df ->
  to_file l p w =
    (set_files (write_disk df p (files w)).1 w, (write_disk df p (files w)).2).
Proof.
  intros Hl. unfold to_file.
  by rewrite (bind_ok _ _ _ _ _ (deref_some _ _ _ Hl)).
Qed.

(** Run on a world where both references are live frames, the body of the
    [else] branch performs the selection [join_selection] and hands it to
    the writer. *)
Lemma join_attempt_spec aoi shape fp w (A B : @GeoDataFrame Geometry) :
  heap w !! aoi = Some A ->
  heap w !! shape = Some B ->
  exists h',
    heap w ⊆ h' /\
    subset_aoi_try aoi shape fp false w =
      match join_selection A B with
      | inl e => (set_heap h' w, inl e)
      | inr sel =>
          let r := write_disk sel fp (files w) in
          (set_files r.1 (set_heap h' w),
           match r.2 with inl e => inl e | inr _ => inr true end)
      end.
Proof.
  intros HA HB. unfold subset_aoi_try, join_selection.
  pose proof (gpd_sjoin_spec _ _ _ _ _ HA HB) as Hs.
  destruct (sjoin_inner_intersects A B) as [e|J];
    rewrite (bind_step _ _ _ _ _ Hs); clear Hs.
  { exists (heap w). split; [done|]. by destruct w. }
  set (l1 := fresh (dom (heap w))).
  assert (Hsub1 : heap w ⊆ <[l1 := J]> (heap w)).
  { apply insert_subseteq, not_elem_of_dom, is_fresh. }
  set (w1 := set_heap (<[l1 := J]> (heap w)) w).
  assert (HJ : heap w1 !! l1 = Some J) by apply lookup_insert_eq.
  assert (HB1 : heap w1 !! shape = Some B).
  { cbn. rewrite lookup_insert_ne; [done|]. by eapply fresh_ne. }
  rewrite (bind_step _ _ _ _ _ (df_getitem_spec _ _ _ _ HJ)).
  destruct (getitem J "osm_id") as [e|osm_id].
  { exists (heap w1). by split. }
  rewrite (bind_step _ _ _ _ _ (df_getitem_spec _ _ _ _ HB1)).
  destruct (getitem B "osm_id") as [e|col].
  { exists (heap w1). by split. }
  rewrite (bind_step _ _ _ _ _ (df_getitem_mask_spec _ _ _ _ HB1)).
  set (sel := getitem_mask B (isin col osm_id)).
  set (l2 := fresh (dom (heap w1))).
  set (w2 := set_heap (<[l2 := sel]> (heap w1)) w1).
  assert (Hsel : heap w2 !! l2 = Some sel) by apply lookup_insert_eq.
  rewrite (bind_step _ _ _ _ _ (to_file_spec _ _ _ _ Hsel)).
  exists (heap w2). split.
  { etrans; [exact Hsub1|].
    apply insert_subseteq, not_elem_of_dom, is_fresh. }
  cbn. by destruct (write_disk sel fp (files w)) as [fs [e|[]]].
Qed.

(** The retry is the [else] branch run after two lines are printed. *)
Lemma retry_is_join_attempt e aoi shape fp w :
  subset_aoi_retry e aoi shape fp w
  = subset_aoi_try aoi shape fp false
      (set_stdout (stdout w ++ retry_log e) w).
Proof.
  unfold subset_aoi_retry, subset_aoi_try, retry_log.
  unfold bind at 1 2. cbn [print]. cbn [set_stdout heap files stdout].
  by rewrite <- app_assoc.
Qed.

(** The [else] branch neither reads nor writes the output stream. *)
Lemma silent_bind {A B} (c : M (@World Geometry) A) (k : A -> M _ B) :
  silent c -> (forall a, silent (k a)) -> silent (bind c k).
Proof.
  intros Hc Hk o w. unfold bind. rewrite Hc.
  destruct (c w) as [w1 [e|a]]; cbn; [done|]. apply Hk.
Qed.

Lemma silent_deref l : silent (@deref Geometry l).
Proof. intros o w. unfold deref. cbn. by destruct (heap w !! l). Qed.

Lemma silent_alloc df : silent (alloc df).
Proof. by intros o w. Qed.

Lemma silent_lift {A} (r : exn + A) : silent (@lift (@World Geometry) A r).
Proof. by intros o w. Qed.

Lemma silent_ret {A} (a : A) : silent (@ret (@World Geometry) A a).
Proof. by intros o w. Qed.

Lemma silent_to_file l p : silent (to_file l p).
Proof.
  apply silent_bind; [apply silent_deref|]. by intros df o w.
Qed.

Lemma join_attempt_stdout aoi shape fp o w :
  subset_aoi_try aoi shape fp false (set_stdout o w)
  = (set_stdout o (subset_aoi_try aoi shape fp false w).1,
     (subset_aoi_try aoi shape fp false w).2).
Proof.
  revert o w. change (silent (subset_aoi_try aoi shape fp false)).
  unfold subset_aoi_try, gpd_sjoin, df_getitem, df_getitem_mask.
  repeat first
    [ apply silent_to_file | apply silent_deref | apply silent_alloc
    | apply silent_lift | apply silent_ret
    | apply silent_bind; [|intros ?] ].
Qed.

(** A completed attempt reports [True]. *)
Lemma subset_aoi_try_true aoi shape fp intersect w w' b :
  subset_aoi_try aoi shape fp intersect w = (w', inr b) -> b = true.
Proof.
  unfold subset_aoi_try. destruct intersect; intros Hr;
    repeat (apply bind_inr in Hr as (? & ? & _ & Hr));
    cbv [ret] in Hr; congruence.
Qed.

Lemma deref_none w l :
  heap w !! l = None -> deref l w = (w, inl (TypeError "not a GeoDataFrame")).
Proof. unfold deref. by intros ->. Qed.

Lemma set_stdout_id w : set_stdout (stdout w) w = w.
Proof. by destruct w. Qed.

Lemma join_attempt_keeps_stdout aoi shape fp w :
  stdout (subset_aoi_try aoi shape fp false w).1 = stdout w.
Proof.
  pose proof (join_attempt_stdout aoi shape fp (stdout w) w) as Hs.
  rewrite set_stdout_id in Hs. by rewrite Hs at 1.
Qed.

(** What a completed join attempt has selected and written. *)
Lemma join_attempt_success aoi shape fp w w1 b (A B : @GeoDataFrame Geometry) :
  heap w !! aoi = Some A ->
  heap w !! shape = Some B ->
  subset_aoi_try aoi shape fp false w = (w1, inr b) ->
  exists J osm_id,
    sjoin_inner_intersects A B = inr J /\
    getitem J "osm_id" = inr osm_id /\
    "osm_id" ∈ columns B /\
    files w1 !! fp = Some (select_isin "osm_id" osm_id B).
Proof.
  intros HA HB Hrun.
  destruct (join_attempt_spec aoi shape fp w A B HA HB) as (h' & _ & Hspec).
  rewrite Hspec in Hrun. clear Hspec. unfold join_selection in Hrun.
  destruct (sjoin_inner_intersects A B) as [e|J]; [discriminate|].
  destruct (getitem J "osm_id") as [e|osm_id] eqn:HJ; [discriminate|].
  destruct (getitem B "osm_id") as [e|col] eqn:Hcol; [discriminate|].
  exists J, osm_id. split; [done|]. split; [done|].
  split; [by apply getitem_inr in Hcol as [? _]|].
  rewrite (getitem_mask_isin _ _ _ _ Hcol) in Hrun.
  unfold write_disk in Hrun. cbn in Hrun.
  destruct (to_file_outcome _ fp (files w)) as [|e [d|]]; simplify_eq/=.
  apply lookup_insert_eq.
Qed.

(** Without the identifier column in [B] the selection raises, and once the
    join itself has succeeded the error is the failed column lookup. *)
Lemma join_selection_missing (A B : @GeoDataFrame Geometry) :
  "osm_id" ∉ columns B ->
  exists e,
    join_selection A B = inl e /\
    forall J, sjoin_inner_intersects A B = inr J -> e = KeyError "osm_id".
Proof.
  intros Hmiss. unfold join_selection.
  destruct (sjoin_inner_intersects A B) as [e|J]; [by exists e|].
  unfold getitem at 1. destruct (decide ("osm_id" ∈ columns J)).
  - rewrite (getitem_missing _ _ Hmiss). by exists (KeyError "osm_id").
  - by exists (KeyError "osm_id").
Qed.

(** *** load_shapefile *)

(** C4, as the code has it: on a file holding a dataset [D],
    [load_shapefile] returns [D] itself when no identifiers are supplied,
    and, when identifiers are supplied and [D] has the identifier column
    ZCTA5CE10, exactly the rows of [D] whose identifier is among them, in
    the order of [D]; the disk is not changed. *)
Theorem load_shapefile_selects path zipcodes w (D : @GeoDataFrame Geometry) :
  files w !! path = Some D ->
  (zipcodes <> [] -> "ZCTA5CE10" ∈ columns D) ->
  exists l,
    (load_shapefile path zipcodes w).2 = inr l /\
    heap (load_shapefile path zipcodes w).1 !! l
      = Some match zipcodes with
             | [] => D
             | _ => select_isin "ZCTA5CE10" zipcodes D
             end /\
    files (load_shapefile path zipcodes w).1 = files w.
Proof.
  intros Hfile Hcol. unfold load_shapefile.
  assert (Hread : read_file path w =
    (set_heap (<[fresh (dom (heap w)) := D]> (heap w)) w,
     inr (fresh (dom (heap w))))).
  { unfold read_file. by rewrite Hfile. }
  rewrite (bind_ok _ _ _ _ _ Hread).
  set (l := fresh (dom (heap w))).
  set (w1 := set_heap (<[l := D]> (heap w)) w).
  assert (Hl : heap w1 !! l = Some D) by apply lookup_insert_eq.
  destruct zipcodes as [|z zs]; cbn [truthy_list].
  { exists l. by cbn. }
  rewrite (bind_step _ _ _ _ _ (df_getitem_spec _ _ _ _ Hl)).
  destruct (getitem D "ZCTA5CE10") as [e|col] eqn:Hget.
  { unfold getitem in Hget.
    destruct (decide ("ZCTA5CE10" ∈ columns D)) as [|Hno]; [discriminate|].
    by destruct Hno; apply Hcol. }
  rewrite (bind_step _ _ _ _ _ (df_getitem_mask_spec _ _ _ _ Hl)).
  rewrite (getitem_mask_isin _ _ _ _ Hget).
  eexists. cbn. split; [done|]. split; [|done]. apply lookup_insert_eq.
Qed.

(** *** subset_aoi *)

(** C1: whatever the two references, the output path and the flag,
    [subset_aoi] returns a boolean and never raises.  It returns [True]
    with the world of the first attempt when that attempt completes;
    otherwise it runs the spatial-join strategy once more, after logging the
    error, and returns [True] if that completes and [False], after logging
    again, if it raises too. *)
Theorem subset_aoi_never_raises aoi shape fp intersect (w : @World Geometry) :
  exists b,
    (subset_aoi aoi shape fp intersect w).2 = inr b /\
    match subset_aoi_try aoi shape fp intersect w with
    | (w1, inr _) =>
        b = true /\ (subset_aoi aoi shape fp intersect w).1 = w1
    | (w1, inl e) =>
        match subset_aoi_try aoi shape fp false
                (set_stdout (stdout w1 ++ retry_log e) w1) with
        | (w2, inr _) =>
            b = true /\ (subset_aoi aoi shape fp intersect w).1 = w2
        | (w2, inl e') =>
            b = false /\
            (subset_aoi aoi shape fp intersect w).1
            = set_stdout (stdout w2 ++ [exn_str e';
                                        "Error dumping to file, giving up!"]) w2
        end
    end.
Proof.
  unfold subset_aoi, try_except.
  destruct (subset_aoi_try aoi shape fp intersect w) as [w1 [e|b]] eqn:Htry.
  - rewrite retry_is_join_attempt.
    destruct (subset_aoi_try aoi shape fp false _) as [w2 [e'|b2]] eqn:Hre.
    + exists false. split; [done|]. split; [done|].
      unfold subset_aoi_give_up, bind, print, ret. cbn.
      by rewrite <- app_assoc.
    + apply subset_aoi_try_true in Hre as ->. by exists true.
  - apply subset_aoi_try_true in Htry as ->. by exists true.
Qed.

(** C3: from the same world, the fallback and the [intersect=False] branch
    end alike: the same result or the same exception, the same disk (the
    same selection of rows of [B] under the same path) and the same objects;
    the fallback only prints its two lines first. *)
Theorem fallback_is_join_branch e aoi shape fp (w : @World Geometry) :
  (subset_aoi_retry e aoi shape fp w).2
    = (subset_aoi_try aoi shape fp false w).2 /\
  files (subset_aoi_retry e aoi shape fp w).1
    = files (subset_aoi_try aoi shape fp false w).1 /\
  heap (subset_aoi_retry e aoi shape fp w).1
    = heap (subset_aoi_try aoi shape fp false w).1 /\
  stdout (subset_aoi_retry e aoi shape fp w).1
    = (stdout (subset_aoi_try aoi shape fp false w).1 ++ retry_log e)%list.
Proof.
  rewrite retry_is_join_attempt, join_attempt_stdout.
  rewrite join_attempt_keeps_stdout. by cbn.
Qed.

(** C8: [subset_aoi] leaves its two input datasets as they were, in either
    mode and whatever it returns; every other live object is unchanged too,
    and no file but the one at the output path is touched. *)
Theorem subset_aoi_preserves_inputs aoi shape fp intersect
    (w : @World Geometry) (A B : @GeoDataFrame Geometry) :
  heap w !! aoi = Some A ->
  heap w !! shape = Some B ->
  heap (subset_aoi aoi shape fp intersect w).1 !! aoi = Some A /\
  heap (subset_aoi aoi shape fp intersect w).1 !! shape = Some B /\
  heap w ⊆ heap (subset_aoi aoi shape fp intersect w).1 /\
  forall p, p <> fp ->
    files (subset_aoi aoi shape fp intersect w).1 !! p = files w !! p.
Proof.
  intros HA HB.
  destruct (frames_subset_aoi aoi shape fp intersect w) as [Hheap Hfiles].
  repeat split; [by eapply lookup_weaken..|done|done].
Qed.

(** C2, as the code has it: when [subset_aoi] with [intersect=False]
    returns [True], the join of [A] and [B] succeeded and carries the
    identifier column, [B] has that column, and the output path holds
    exactly the rows of [B] whose identifier occurs among the rows of the
    join: whole rows of [B], in the order of [B], with the reference system
    and the columns of [B]. *)
Theorem subset_aoi_join_writes_selection aoi shape fp
    (w w' : @World Geometry) (A B : @GeoDataFrame Geometry) :
  heap w !! aoi = Some A ->
  heap w !! shape = Some B ->
  subset_aoi aoi shape fp false w = (w', inr true) ->
  exists J osm_id,
    sjoin_inner_intersects A B = inr J /\
    getitem J "osm_id" = inr osm_id /\
    "osm_id" ∈ columns B /\
    files w' !! fp = Some (select_isin "osm_id" osm_id B) /\
    rows (select_isin "osm_id" osm_id B)
      = filter (fun r => cell "osm_id" r ∈ osm_id) (rows B) /\
    sublist (rows (select_isin "osm_id" osm_id B)) (rows B).
Proof.
  intros HA HB Hrun.
  cut (exists J osm_id,
         sjoin_inner_intersects A B = inr J /\
         getitem J "osm_id" = inr osm_id /\
         "osm_id" ∈ columns B /\
         files w' !! fp = Some (select_isin "osm_id" osm_id B)).
  { intros (J & osm_id & ? & ? & ? & ?). exists J, osm_id.
    repeat split; try done. apply select_isin_sublist. }
  unfold subset_aoi, try_except in Hrun.
  destruct (subset_aoi_try aoi shape fp false w) as [w1 [e|b]] eqn:Htry.
  - rewrite retry_is_join_attempt in Hrun.
    destruct (subset_aoi_try aoi shape fp false (set_stdout _ w1))
      as [w2 [e'|b2]] eqn:Hre.
    + unfold subset_aoi_give_up, bind, print, ret in Hrun. discriminate.
    + injection Hrun as -> _.
      destruct (frames_subset_aoi_try aoi shape fp false w) as [Hheap _].
      rewrite Htry in Hheap. cbn in Hheap.
      eapply (join_attempt_success aoi shape fp _ w' b2 A B); [..|exact Hre];
        cbn; by eapply lookup_weaken.
  - injection Hrun as -> _.
    by eapply (join_attempt_success aoi shape fp w w' b A B).
Qed.

(** C9: when [B] has no column osm_id, the first attempt with
    [intersect=False] and the retry raise the same exception, so the call
    returns [False]; nothing is written.  Once the join itself succeeds, the
    exception is the failed lookup of osm_id. *)
Theorem subset_aoi_missing_identifier aoi shape fp
    (w : @World Geometry) (B : @GeoDataFrame Geometry) :
  heap w !! shape = Some B ->
  "osm_id" ∉ columns B ->
  exists e w1 w2,
    subset_aoi_try aoi shape fp false w = (w1, inl e) /\
    subset_aoi_retry e aoi shape fp w1 = (w2, inl e) /\
    (subset_aoi aoi shape fp false w).2 = inr false /\
    files (subset_aoi aoi shape fp false w).1 = files w /\
    forall A J,
      heap w !! aoi = Some A ->
      sjoin_inner_intersects A B = inr J ->
      e = KeyError "osm_id".
Proof.
  intros HB Hmiss.
  assert (Hwrap : forall e w1 w2,
    subset_aoi_try aoi shape fp false w = (w1, inl e) ->
    subset_aoi_retry e aoi shape fp w1 = (w2, inl e) ->
    files w2 = files w ->
    (subset_aoi aoi shape fp false w).2 = inr false /\
    files (subset_aoi aoi shape fp false w).1 = files w).
  { intros e w1 w2 H1 H2 Hf. unfold subset_aoi, try_except.
    rewrite H1, H2. by cbn. }
  destruct (heap w !! aoi) as [A|] eqn:HA.
  - destruct (join_selection_missing A B Hmiss) as (e & Hsel & He).
    destruct (join_attempt_spec aoi shape fp w A B HA HB) as (h1 & Hsub1 & H1).
    rewrite Hsel in H1.
    set (w1 := set_heap h1 w) in *.
    set (w1' := set_stdout (stdout w1 ++ retry_log e) w1).
    destruct (join_attempt_spec aoi shape fp w1' A B) as (h2 & _ & H2).
    { cbn. by eapply lookup_weaken. }
    { cbn. by eapply lookup_weaken. }
    rewrite Hsel in H2.
    pose proof (retry_is_join_attempt e aoi shape fp w1) as Hr.
    fold w1' in Hr. rewrite H2 in Hr.
    exists e, w1, (set_heap h2 w1').
    destruct (Hwrap _ _ _ H1 Hr) as [? ?]; [done|].
    repeat split; try done. intros A' J [= <-]. apply He.
  - assert (Hderef : forall w0 : @World Geometry, heap w0 !! aoi = None ->
      subset_aoi_try aoi shape fp false w0
      = (w0, inl (TypeError "not a GeoDataFrame"))).
    { intros w0 H0. unfold subset_aoi_try, gpd_sjoin.
      erewrite bind_err; [done|]. erewrite bind_err; [done|].
      by apply deref_none. }
    set (e := TypeError "not a GeoDataFrame").
    set (w1' := set_stdout (stdout w ++ retry_log e) w).
    assert (H2 : subset_aoi_retry e aoi shape fp w = (w1', inl e)).
    { rewrite retry_is_join_attempt. by apply Hderef. }
    exists e, w, w1'.
    destruct (Hwrap _ _ _ (Hderef w HA) H2) as [? ?]; [done|].
    repeat split; try done. by apply Hderef.
Qed.

End VectorFacts.

(** *** The vector helpers on the reference data *)

Lemma load_shapefile_selects_witness :
  exists l,
    (load_shapefile "zcta.shp" [VStr "94110"; VStr "94103"] Ref.world0).2
      = inr l /\
    heap (load_shapefile "zcta.shp" [VStr "94110"; VStr "94103"] Ref.world0).1
      !! l
      = Some (select_isin "ZCTA5CE10" [VStr "94110"; VStr "94103"] Ref.zcta) /\
    files (load_shapefile "zcta.shp" [VStr "94110"; VStr "94103"] Ref.world0).1
      = files Ref.world0.
Proof.
  apply (load_shapefile_selects "zcta.shp" [VStr "94110"; VStr "94103"]
           Ref.world0 Ref.zcta).
  - vm_compute. reflexivity.
  - intros _. simpl. apply list_elem_of_here.
Defined.

(** C4 as stated fails on a dataset without the identifier column: with a
    non-empty identifier list the column lookup raises [KeyError] and
    nothing is returned. *)
Lemma load_shapefile_missing_column_raises :
  files Ref.world0 !! "parcels.shp" = Some Ref.parcels /\
  (load_shapefile "parcels.shp" [VStr "94103"] Ref.world0).2
    = inl (KeyError "ZCTA5CE10") /\
  ~ exists l,
      (load_shapefile "parcels.shp" [VStr "94103"] Ref.world0).2 = inr l.
Proof.
  assert (Hrun : (load_shapefile "parcels.shp" [VStr "94103"] Ref.world0).2
                 = inl (KeyError "ZCTA5CE10")) by (vm_compute; reflexivity).
  split; [vm_compute; reflexivity|]. split; [exact Hrun|].
  intros [l Hl]. rewrite Hrun in Hl. discriminate.
Qed.

Lemma subset_aoi_join_writes_selection_witness :
  exists J osm_id,
    sjoin_inner_intersects Ref.aoi_frame Ref.roads = inr J /\
    getitem J "osm_id" = inr osm_id /\
    "osm_id" ∈ columns Ref.roads /\
    files (subset_aoi 1%positive 2%positive "out.shp" false Ref.world0).1
      !! "out.shp"
      = Some (select_isin "osm_id" osm_id Ref.roads) /\
    rows (select_isin "osm_id" osm_id Ref.roads)
      = filter (fun r => cell "osm_id" r ∈ osm_id) (rows Ref.roads) /\
    sublist (rows (select_isin "osm_id" osm_id Ref.roads)) (rows Ref.roads).
Proof.
  apply (subset_aoi_join_writes_selection 1%positive 2%positive "out.shp"
           Ref.world0
           (subset_aoi 1%positive 2%positive "out.shp" false Ref.world0).1
           Ref.aoi_frame Ref.roads).
  - vm_compute. reflexivity.
  - vm_compute. reflexivity.
  - vm_compute. reflexivity.
Defined.

(** C2 as stated fails on a dataset [B] without the identifier column: its
    only feature overlaps the area of interest, yet both attempts raise,
    the call returns [False] and no file appears at the output path. *)
Lemma subset_aoi_join_without_identifier_writes_nothing :
  heap Ref.world0 !! 4%positive = Some Ref.parcels /\
  (subset_aoi 1%positive 4%positive "out.shp" false Ref.world0).2
    = inr false /\
  files (subset_aoi 1%positive 4%positive "out.shp" false Ref.world0).1
    !! "out.shp" = None.
Proof. repeat split; vm_compute; reflexivity. Qed.

Lemma subset_aoi_preserves_inputs_witness :
  heap (subset_aoi 1%positive 3%positive "out.shp" true Ref.world0).1
    !! 1%positive = Some Ref.aoi_frame /\
  heap (subset_aoi 1%positive 3%positive "out.shp" true Ref.world0).1
    !! 3%positive = Some Ref.poi /\
  heap Ref.world0
    ⊆ heap (subset_aoi 1%positive 3%positive "out.shp" true Ref.world0).1 /\
  forall p, p <> "out.shp" ->
    files (subset_aoi 1%positive 3%positive "out.shp" true Ref.world0).1 !! p
    = files Ref.world0 !! p.
Proof.
  apply (subset_aoi_preserves_inputs 1%positive 3%positive "out.shp" true
           Ref.world0 Ref.aoi_frame Ref.poi).
  - vm_compute. reflexivity.
  - vm_compute. reflexivity.
Defined.

Lemma subset_aoi_missing_identifier_witness :
  exists e w1 w2,
    subset_aoi_try 1%positive 4%positive "out.shp" false Ref.world0
      = (w1, inl e) /\
    subset_aoi_retry e 1%positive 4%positive "out.shp" w1 = (w2, inl e) /\
    (subset_aoi 1%positive 4%positive "out.shp" false Ref.world0).2
      = inr false /\
    files (subset_aoi 1%positive 4%positive "out.shp" false Ref.world0).1
      = files Ref.world0 /\
    forall A J,
      heap Ref.world0 !! 1%positive = Some A ->
      sjoin_inner_intersects A Ref.parcels = inr J ->
      e = KeyError "osm_id".
Proof.
  apply (subset_aoi_missing_identifier 1%positive 4%positive "out.shp"
           Ref.world0 Ref.parcels).
  - vm_compute. reflexivity.
  - simpl. intros Hin. apply list_elem_of_singleton in Hin. discriminate.
Defined.

(** ** Raster images *)

Section RasterFacts.

Implicit Types (a : list (list (list Z))) (px : list Z).

Lemma pixel_map (f : list Z -> list Z) a i j k :
  pixel (map (map f) a) i j k
  = row ← a !! i; px ← row !! j; f px !! k.
Proof.
  unfold pixel. change (map (map f) a) with (fmap (M := list) (map f) a).
  rewrite list_lookup_fmap. destruct (a !! i) as [row|]; [|done]. cbn.
  change (map f row) with (f <$> row). rewrite list_lookup_fmap.
  by destruct (row !! j).
Qed.

(** [a[:,:,1:][i,j,k]] is [a[i,j,k+1]]. *)
Lemma pixel_bands_from a i j k :
  pixel (map (map (drop 1)) a) i j k = pixel a i j (S k).
Proof.
  rewrite pixel_map. unfold pixel.
  destruct (a !! i) as [row|]; [|done]. cbn.
  destruct (row !! j) as [px|]; [|done]. cbn.
  by rewrite lookup_drop.
Qed.

(** [a[:,:,:3][i,j,k]] is [a[i,j,k]] for [k < 3] and out of range beyond. *)
Lemma pixel_bands_to a i j k :
  pixel (map (map (take 3)) a) i j k
  = if decide (k < 3) then pixel a i j k else None.
Proof.
  rewrite pixel_map. unfold pixel.
  destruct (a !! i) as [row|]; [|by case_decide]. cbn.
  destruct (row !! j) as [px|]; [|by case_decide]. cbn.
  case_decide.
  - by rewrite lookup_take_lt.
  - rewrite lookup_take_ge; [done|lia].
Qed.

Lemma has_shape_map (f : list Z -> list Z) a h w n m :
  (forall px, length px = n -> length (f px) = m) ->
  has_shape a h w n -> has_shape (map (map f) a) h w m.
Proof.
  intros Hf [Hh Hrows]. split; [by rewrite length_map|].
  apply Forall_map. eapply Forall_impl; [exact Hrows|].
  intros row [Hw Hpx]. cbn. split; [by rewrite length_map|].
  apply Forall_map. eapply Forall_impl; [exact Hpx|]. intros px. apply Hf.
Qed.

Lemma has_shape_displayable a h w :
  has_shape a h w 3 -> displayable (Arr3 a) = true.
Proof.
  intros [_ Hrows]. cbn. apply forallb_forall. intros row Hrow.
  rewrite Forall_forall in Hrows.
  apply list_elem_of_In, Hrows in Hrow as [_ Hpx].
  apply forallb_forall. intros px Hin.
  rewrite Forall_forall in Hpx. apply list_elem_of_In, Hpx in Hin as ->.
  done.
Qed.

(** A two-dimensional array, which is what a single-band image decodes to,
    has no band axis to slice. *)
Lemma select_bands_two_dimensional infrared (a2 : list (list Z)) :
  select_bands infrared (Arr2 a2)
  = inl (IndexError "too many indices for array").
Proof. by destruct infrared. Qed.

(** The band selection on a three-dimensional array: the result, its shape
    and its pixels. *)
Lemma select_bands_spec infrared a h w n :
  has_shape a h w n ->
  exists a',
    select_bands infrared (Arr3 a) = inr (Arr3 a') /\
    has_shape a' h w (if infrared then n - 1 else n `min` 3) /\
    forall i j k,
      pixel a' i j k
      = if infrared then pixel a i j (S k)
        else if decide (k < 3) then pixel a i j k else None.
Proof.
  intros Hshape. destruct infrared; cbn [select_bands bands_from bands_to].
  - eexists. split; [reflexivity|]. split.
    + eapply has_shape_map; [|exact Hshape].
      intros px <-. rewrite length_drop. lia.
    + intros i j k. apply pixel_bands_from.
  - eexists. split; [reflexivity|]. split.
    + eapply has_shape_map; [|exact Hshape].
      intros px <-. rewrite length_take. lia.
    + intros i j k. apply pixel_bands_to.
Qed.

(** C10, as the code has it: the band selection is total on the arrays
    that have a band axis, and only on them.  On a three-dimensional array
    of shape ([h], [w], [n]) it never raises: with [infrared] it yields the
    [n - 1] bands 1..n-1 (two bands for a three-band input), otherwise the
    first [min n 3] bands; rows, columns and pixel values are the source's.
    On the two-dimensional array that a single-band image decodes to, the
    three-index slice raises [IndexError] in either mode. *)
Theorem select_bands_total infrared (im : ndarray) :
  match im with
  | Arr2 _ =>
      select_bands infrared im = inl (IndexError "too many indices for array")
  | Arr3 a =>
      forall h w n,
        has_shape a h w n ->
        exists a',
          select_bands infrared im = inr (Arr3 a') /\
          has_shape a' h w (if infrared then n - 1 else n `min` 3) /\
          forall i j k,
            pixel a' i j k
            = if infrared then pixel a i j (S k)
              else if decide (k < 3) then pixel a i j k else None
  end.
Proof.
  destruct im as [a2|a].
  - apply select_bands_two_dimensional.
  - intros h w n. apply select_bands_spec.
Qed.

(** C5: for a four-band image, [show_image] completes and the array it
    displays has exactly three bands, which are bands 1, 2, 3 of the source
    with [infrared] and bands 0, 1, 2 without, pixel value by pixel value. *)
Theorem show_image_four_bands fp save_path infrared (s : Screen) a h w :
  images s !! fp = Some (Arr3 a) ->
  has_shape a h w 4 ->
  exists a',
    (show_image fp save_path infrared s).2 = inr tt /\
    canvas (show_image fp save_path infrared s).1 = Some (Arr3 a') /\
    has_shape a' h w 3 /\
    forall i j k,
      k < 3 ->
      pixel a' i j k = pixel a i j (if infrared then S k else k).
Proof.
  intros Hfile Hshape.
  destruct (select_bands_spec infrared a h w 4 Hshape)
    as (a' & Hsel & Hshape' & Hpx).
  assert (Hthree : has_shape a' h w 3) by (by destruct infrared).
  exists a'. unfold show_image, bind, image_open, lift. rewrite Hfile, Hsel.
  cbn [new_figure bands_all]. unfold imshow.
  rewrite (has_shape_displayable _ _ _ Hthree).
  assert (Hband : forall i j k, k < 3 ->
            pixel a' i j k = pixel a i j (if infrared then S k else k)).
  { intros i j k Hk. rewrite Hpx.
    destruct infrared; [done|]. by rewrite decide_True. }
  destruct (decide (save_path = "")); cbn;
    (split; [done|]; split; [done|]; split; [exact Hthree|exact Hband]).
Qed.

End RasterFacts.

Lemma select_bands_total_witness :
  exists a',
    select_bands true (Arr3 Ref.rgb) = inr (Arr3 a') /\
    has_shape a' 1 1 (3 - 1) /\
    forall i j k, pixel a' i j k = pixel Ref.rgb i j (S k).
Proof.
  apply (select_bands_total true (Arr3 Ref.rgb) 1 1 3).
  split; [reflexivity|]. repeat constructor.
Defined.

(** A single-band image: the file decodes to a two-dimensional array, the
    band selection raises on it with and without [infrared], and so does the
    call that reaches it. *)
Lemma select_bands_single_band_raises :
  images Ref.screen1 !! "gray.png" = Some (Arr2 Ref.gray) /\
  select_bands true (Arr2 Ref.gray)
    = inl (IndexError "too many indices for array") /\
  select_bands false (Arr2 Ref.gray)
    = inl (IndexError "too many indices for array") /\
  (show_image "gray.png" "" false Ref.screen1).2
    = inl (IndexError "too many indices for array").
Proof. repeat split; vm_compute; reflexivity. Qed.

Lemma show_image_four_bands_witness :
  exists a',
    (show_image "scene.tif" "scene.png" true Ref.screen0).2 = inr tt /\
    canvas (show_image "scene.tif" "scene.png" true Ref.screen0).1
      = Some (Arr3 a') /\
    has_shape a' 1 2 3 /\
    forall i j k, k < 3 -> pixel a' i j k = pixel Ref.rgbn i j (S k).
Proof.
  apply (show_image_four_bands "scene.tif" "scene.png" true Ref.screen0
           Ref.rgbn 1 2).
  - vm_compute. reflexivity.
  - split; [reflexivity|]. repeat constructor.
Defined.

(** ** The geodatabase export *)

Section StringFacts.

Lemma string_app_cons c (a b : string) :
  String c a +:+ b = String c (a +:+ b).
Proof. reflexivity. Qed.

Lemma string_app_length (a b : string) :
  String.length (a +:+ b) = String.length a + String.length b.
Proof.
  induction a as [|c a IH]; [done|].
  rewrite string_app_cons. cbn [String.length]. by rewrite IH.
Qed.

(** Strings that end in suffixes of one length split alike. *)
Lemma string_app_inj_suffix (a b x y : string) :
  String.length x = String.length y ->
  a +:+ x = b +:+ y -> a = b /\ x = y.
Proof.
  intros Hxy. revert b. induction a as [|c a IH]; intros [|c' b] Heq.
  - done.
  - apply (f_equal String.length) in Heq.
    rewrite !string_app_length in Heq. cbn [String.length] in Heq. lia.
  - apply (f_equal String.length) in Heq.
    rewrite !string_app_length in Heq. cbn [String.length] in Heq. lia.
  - rewrite !string_app_cons in Heq. injection Heq as -> Heq.
    by destruct (IH _ Heq) as [-> ->].
Qed.

Lemma csv_path_inj n m : csv_path n = csv_path m -> n = m.
Proof.
  unfold csv_path. intros Heq.
  apply (String.app_inj "./data/ACS2016/") in Heq.
  by destruct (string_app_inj_suffix n m ".csv" ".csv" eq_refl Heq) as [-> _].
Qed.

Lemma shp_path_inj n m : shp_path n = shp_path m -> n = m.
Proof.
  unfold shp_path. intros Heq.
  apply (String.app_inj "./data/ACS2016/") in Heq.
  by destruct (string_app_inj_suffix n m ".shp" ".shp" eq_refl Heq) as [-> _].
Qed.

Lemma shp_path_not_csv n m : shp_path n <> csv_path m.
Proof.
  unfold shp_path, csv_path. intros Heq.
  apply (String.app_inj "./data/ACS2016/") in Heq.
  by destruct (string_app_inj_suffix n m ".shp" ".csv" eq_refl Heq) as [_ [=]].
Qed.

Lemma output_path_inj n m : output_path n = output_path m -> n = m.
Proof.
  unfold output_path. repeat case_decide; intros Heq.
  - congruence.
  - by apply shp_path_not_csv in Heq.
  - symmetry in Heq. by apply shp_path_not_csv in Heq.
  - by apply csv_path_inj.
Qed.

Lemma shp_path_not_datasrc n : shp_path n <> datasrc_path.
Proof. unfold shp_path, datasrc_path. intros Heq. by simplify_eq/=. Qed.

Lemma csv_path_not_datasrc n : csv_path n <> datasrc_path.
Proof. unfold csv_path, datasrc_path. intros Heq. by simplify_eq/=. Qed.

Lemma output_path_not_datasrc n : output_path n <> datasrc_path.
Proof.
  unfold output_path. case_decide;
    [apply shp_path_not_datasrc|apply csv_path_not_datasrc].
Qed.

End StringFacts.

Section GeodatabaseFacts.

Context {Geom : Type} (to_csv : list (list (string * Value)) -> string).

Implicit Types (d : @Disk Geom) (c : @Collection Geom)
  (g : list (string * @Collection Geom)).

Lemma collect_properties_spec (fs : list (@Feature Geom)) acc :
  collect_properties fs acc = (acc ++ map properties fs)%list.
Proof.
  revert acc. induction fs as [|f fs IH]; intros acc; cbn.
  - by rewrite app_nil_r.
  - by rewrite IH, <- app_assoc.
Qed.

Lemma find_layer_some g n :
  n ∈ map fst g -> is_Some (find_layer g n).
Proof.
  induction g as [|[m c] g IH]; cbn; [by intros ?%elem_of_nil|].
  intros Hin. case_decide; [by eexists|].
  apply IH. apply elem_of_cons in Hin as [?|?]; [congruence|done].
Qed.

(** Whether a file can be created depends on the directories only. *)
Lemma can_create_same_dirs path d d' :
  dirs d' = dirs d -> can_create path d' = can_create path d.
Proof. unfold can_create. by intros ->. Qed.

(** The copy loop appends the features, in order, to the open sink. *)
Lemma copy_features_spec path drv crs sch (fs fs0 : list (@Feature Geom)) d :
  disk d !! path = Some (VectorFile drv (mkCollection crs sch fs0)) ->
  exists d',
    copy_features path fs d = (d', inr tt) /\
    disk d' = <[path := VectorFile drv (mkCollection crs sch (fs0 ++ fs))]>
                (disk d) /\
    dirs d' = dirs d /\
    printed d' = printed d.
Proof.
  revert fs0 d. induction fs as [|f fs IH]; intros fs0 d Hsink.
  - exists d. rewrite app_nil_r. by rewrite insert_id.
  - cbn [copy_features].
    assert (Hw : sink_write path f d =
      ({| disk := <[path := VectorFile drv
                     (mkCollection crs sch (fs0 ++ [f]))]> (disk d);
          dirs := dirs d; printed := printed d |}, inr tt)).
    { unfold sink_write. by rewrite Hsink. }
    rewrite (bind_ok _ _ _ _ _ Hw).
    match type of Hw with _ = (?d0, _) => set (d1 := d0) in * end.
    destruct (IH (fs0 ++ [f])%list d1) as (d' & Hrun & Hdisk & Hdirs & Hout).
    { apply lookup_insert_eq. }
    exists d'. split; [exact Hrun|]. cbn in Hdisk, Hdirs, Hout.
    by rewrite Hdisk, insert_insert_eq, <- app_assoc.
Qed.

(** One iteration of the loop, when the export can be created: it prints
    the progress line and writes the layer's one export. *)
Lemma peel_layer_spec n d g c :
  disk d !! datasrc_path = Some (GdbFile g) ->
  find_layer g n = Some c ->
  can_create (output_path n) d = true ->
  exists d',
    peel_layer to_csv n d = (d', inr tt) /\
    disk d' = <[output_path n := output_file to_csv n c]> (disk d) /\
    dirs d' = dirs d /\
    printed d' = (printed d ++ [progress_line n])%list.
Proof.
  intros Hsrc Hfind. unfold peel_layer, output_path, output_file, progress_line.
  assert (Hopen : forall drv, fiona_open datasrc_path n drv d = (d, inr c)).
  { intros drv. unfold fiona_open. by rewrite Hsrc, Hfind. }
  rewrite (bind_ok _ _ _ _ _ (Hopen _)).
  destruct (decide (n = geometry_layer)) as [->|Hne]; intros Hdir.
  - erewrite bind_ok by reflexivity.
    erewrite bind_ok;
      [|unfold fiona_open_w, can_create in *; cbn [dirs]; rewrite Hdir;
        reflexivity].
    match goal with |- context [copy_features _ _ ?d0] => set (d1 := d0) end.
    destruct (copy_features_spec (shp_path geometry_layer) "ESRI Shapefile"
                (coll_crs c) (coll_schema c) (coll_features c) [] d1)
      as (d' & -> & Hdisk & Hdirs & Hlog).
    { apply lookup_insert_eq. }
    exists d'. split; [done|]. rewrite Hdisk, Hdirs, Hlog. cbn.
    rewrite insert_insert_eq. by destruct c.
  - erewrite bind_ok by reflexivity.
    unfold write_text, can_create in *. cbn [dirs]. rewrite Hdir.
    eexists. split; [reflexivity|]. cbn.
    by rewrite collect_properties_spec.
Qed.

(** One iteration of the loop, when the directory of the export is
    missing: the progress line is printed, the write raises and the disk is
    as it was. *)
Lemma peel_layer_blocked n d g c :
  disk d !! datasrc_path = Some (GdbFile g) ->
  find_layer g n = Some c ->
  can_create (output_path n) d = false ->
  exists e,
    peel_layer to_csv n d =
      ({| disk := disk d; dirs := dirs d;
          printed := printed d ++ [progress_line n] |}, inl e).
Proof.
  intros Hsrc Hfind. unfold peel_layer, output_path, progress_line.
  assert (Hopen : forall drv, fiona_open datasrc_path n drv d = (d, inr c)).
  { intros drv. unfold fiona_open. by rewrite Hsrc, Hfind. }
  rewrite (bind_ok _ _ _ _ _ (Hopen _)).
  destruct (decide (n = geometry_layer)) as [->|Hne]; intros Hdir.
  - erewrite bind_ok by reflexivity. eexists.
    erewrite bind_err; [reflexivity|].
    unfold fiona_open_w, can_create in *. cbn [dirs]. rewrite Hdir.
    reflexivity.
  - erewrite bind_ok by reflexivity. eexists.
    unfold write_text, can_create in *. cbn [dirs]. rewrite Hdir.
    reflexivity.
Qed.

(** The loop, when every export can be created: every listed layer ends
    with its export in place, no other path changes, and one progress line
    is printed per layer. *)
Lemma peel_layers_spec (ls : list string) d g :
  disk d !! datasrc_path = Some (GdbFile g) ->
  (forall n, n ∈ ls -> is_Some (find_layer g n)) ->
  (forall n, n ∈ ls -> can_create (output_path n) d = true) ->
  exists d',
    peel_layers to_csv ls d = (d', inr tt) /\
    (forall n c, n ∈ ls -> find_layer g n = Some c ->
       disk d' !! output_path n = Some (output_file to_csv n c)) /\
    (forall p, (forall n, n ∈ ls -> p <> output_path n) ->
       disk d' !! p = disk d !! p) /\
    dirs d' = dirs d /\
    printed d' = (printed d ++ map progress_line ls)%list.
Proof.
  revert d. induction ls as [|n0 ls IH]; intros d Hsrc Hall Hdirs.
  - exists d. split; [done|]. split; [by intros n c ?%elem_of_nil|].
    split; [done|]. split; [done|]. cbn. by rewrite app_nil_r.
  - destruct (Hall n0) as [c0 Hc0]; [by left|].
    destruct (peel_layer_spec n0 d g c0 Hsrc Hc0)
      as (d1 & Hrun1 & Hdisk1 & Hdirs1 & Hlog1); [apply Hdirs; by left|].
    destruct (IH d1) as (d' & Hrun & Hout & Hframe & Hdirs' & Hlog).
    { rewrite Hdisk1, lookup_insert_ne; [done|].
      apply output_path_not_datasrc. }
    { intros n Hn. apply Hall. by right. }
    { intros n Hn. rewrite (can_create_same_dirs _ _ _ Hdirs1).
      apply Hdirs. by right. }
    exists d'. cbn [peel_layers]. rewrite (bind_ok _ _ _ _ _ Hrun1).
    split; [exact Hrun|]. split; [|split; [|split]].
    + intros n c Hn Hc. destruct (decide (n ∈ ls)) as [Hin|Hnotin].
      { by apply Hout. }
      apply elem_of_cons in Hn as [->|?]; [|done].
      rewrite Hframe.
      * rewrite Hdisk1, lookup_insert_eq. congruence.
      * intros m Hm Heq%output_path_inj. congruence.
    + intros p Hp. rewrite Hframe.
      * rewrite Hdisk1, lookup_insert_ne; [done|].
        intros Heq. by apply (Hp n0); [left|].
      * intros m Hm. apply Hp. by right.
    + congruence.
    + rewrite Hlog, Hlog1. cbn [map]. by rewrite <- app_assoc.
Qed.

(** The whole run, when the geodatabase is in place and every export can
    be created. *)
Lemma peel_geodatabase_run d g :
  disk d !! datasrc_path = Some (GdbFile g) ->
  exports_creatable g d ->
  exists d',
    peel_geodatabase to_csv d = (d', inr tt) /\
    (forall n c, n ∈ map fst g -> find_layer g n = Some c ->
       disk d' !! output_path n = Some (output_file to_csv n c)) /\
    (forall p, (forall n, n ∈ map fst g -> p <> output_path n) ->
       disk d' !! p = disk d !! p) /\
    dirs d' = dirs d /\
    printed d' = (printed d ++ map progress_line (map fst g))%list.
Proof.
  intros Hsrc Hdirs. unfold peel_geodatabase.
  assert (Hlist : listlayers datasrc_path d = (d, inr (map fst g))).
  { unfold listlayers. by rewrite Hsrc. }
  rewrite (bind_ok _ _ _ _ _ Hlist).
  apply (peel_layers_spec (map fst g) d g Hsrc (find_layer_some g) Hdirs).
Qed.

(** C6, as the code has it: when the geodatabase is in place and the
    directory of every export exists (nothing in the code creates it), the
    export completes and every enumerated layer has exactly one export.
    The geometry layer is copied whole (reference system, schema, every
    feature in order) into a shapefile and gets no text file; any other
    layer has the attribute rows of its features, in order, serialized into
    a text file and gets no shapefile.  No other path on the disk
    changes. *)
Theorem peel_geodatabase_exports d g :
  disk d !! datasrc_path = Some (GdbFile g) ->
  exports_creatable g d ->
  (peel_geodatabase to_csv d).2 = inr tt /\
  (forall n, n ∈ map fst g ->
     exists c,
       find_layer g n = Some c /\
       (n = geometry_layer ->
          disk (peel_geodatabase to_csv d).1 !! shp_path n
            = Some (VectorFile "ESRI Shapefile" c) /\
          disk (peel_geodatabase to_csv d).1 !! csv_path n
            = disk d !! csv_path n) /\
       (n <> geometry_layer ->
          disk (peel_geodatabase to_csv d).1 !! csv_path n
            = Some (TextFile (to_csv (map properties (coll_features c)))) /\
          disk (peel_geodatabase to_csv d).1 !! shp_path n
            = disk d !! shp_path n)) /\
  (forall p, (forall n, n ∈ map fst g -> p <> output_path n) ->
     disk (peel_geodatabase to_csv d).1 !! p = disk d !! p).
Proof.
  intros Hsrc Hdirs.
  destruct (peel_geodatabase_run d g Hsrc Hdirs)
    as (d' & -> & Hout & Hframe & _ & _).
  cbn [fst snd]. split; [done|]. split; [|exact Hframe].
  intros n Hn. destruct (find_layer_some g n Hn) as [c Hc].
  exists c. split; [done|].
  specialize (Hout n c Hn Hc). unfold output_path, output_file in Hout.
  split.
  - intros ->. rewrite !decide_True in Hout by done. split; [done|].
    apply Hframe. intros m Hm. unfold output_path.
    destruct (decide (m = geometry_layer)).
    + intros Heq. symmetry in Heq. by apply shp_path_not_csv in Heq.
    + intros Heq%csv_path_inj. congruence.
  - intros Hne. rewrite !decide_False in Hout by done. split; [done|].
    apply Hframe. intros m Hm. unfold output_path.
    destruct (decide (m = geometry_layer)).
    + intros Heq%shp_path_inj. congruence.
    + apply shp_path_not_csv.
Qed.

End GeodatabaseFacts.

Lemma peel_geodatabase_exports_witness :
  (peel_geodatabase Ref.to_csv Ref.disk0).2 = inr tt /\
  (forall n,
     n ∈ map fst [("X19_INCOME", Ref.income_layer);
                  ("ACS_2016_5YR_BG_06_CALIFORNIA", Ref.bg_layer)] ->
     exists c,
       find_layer [("X19_INCOME", Ref.income_layer);
                   ("ACS_2016_5YR_BG_06_CALIFORNIA", Ref.bg_layer)] n
         = Some c /\
       (n = geometry_layer ->
          disk (peel_geodatabase Ref.to_csv Ref.disk0).1 !! shp_path n
            = Some (VectorFile "ESRI Shapefile" c) /\
          disk (peel_geodatabase Ref.to_csv Ref.disk0).1 !! csv_path n
            = disk Ref.disk0 !! csv_path n) /\
       (n <> geometry_layer ->
          disk (peel_geodatabase Ref.to_csv Ref.disk0).1 !! csv_path n
            = Some (TextFile
                      (Ref.to_csv (map properties (coll_features c)))) /\
          disk (peel_geodatabase Ref.to_csv Ref.disk0).1 !! shp_path n
            = disk Ref.disk0 !! shp_path n)) /\
  (forall p,
     (forall n,
        n ∈ map fst [("X19_INCOME", Ref.income_layer);
                     ("ACS_2016_5YR_BG_06_CALIFORNIA", Ref.bg_layer)] ->
        p <> output_path n) ->
     disk (peel_geodatabase Ref.to_csv Ref.disk0).1 !! p
     = disk Ref.disk0 !! p).
Proof.
  apply (peel_geodatabase_exports Ref.to_csv Ref.disk0).
  - vm_compute. reflexivity.
  - intros n Hn. cbn [map fst] in Hn.
    apply elem_of_cons in Hn as [->|Hn]; [vm_compute; reflexivity|].
    apply list_elem_of_singleton in Hn as ->. vm_compute. reflexivity.
Defined.

(** C6 as stated fails on a disk where the geodatabase is in place but the
    output directory has not been made: the first layer enumerated gets its
    progress line, the write raises, and no file is written for any layer. *)
Lemma peel_geodatabase_without_output_directory :
  disk Ref.disk_without_output_dir !! datasrc_path
    = Some (GdbFile [("X19_INCOME", Ref.income_layer);
                     ("ACS_2016_5YR_BG_06_CALIFORNIA", Ref.bg_layer)]) /\
  (peel_geodatabase Ref.to_csv Ref.disk_without_output_dir).2
    = inl (FileNotFoundError "./data/ACS2016/X19_INCOME.csv") /\
  disk (peel_geodatabase Ref.to_csv Ref.disk_without_output_dir).1
    !! csv_path "X19_INCOME" = None /\
  disk (peel_geodatabase Ref.to_csv Ref.disk_without_output_dir).1
    !! shp_path "ACS_2016_5YR_BG_06_CALIFORNIA" = None /\
  printed (peel_geodatabase Ref.to_csv Ref.disk_without_output_dir).1
    = ["Dumping X19_INCOME to csv"].
Proof. repeat split; vm_compute; reflexivity. Qed.

(** ** Plotting *)

Section PlotFacts.

Context {Layer Color : Type} (Paired : list Color).

Implicit Types (w : @PlotWorld Layer Color)
  (default : gmap string (@PyVal Color)).

Lemma pick_iter default k it col rest w :
  default !! k = Some (PIter it) ->
  iterators w !! it = Some (col :: rest) ->
  pick default k w =
    ({| iterators := <[it := rest]> (iterators w); axes := axes w;
        grid := grid w; style := style w; saved := saved w |},
     inr (PColor col)).
Proof.
  intros Hk Hit. unfold pick, dict_get, bind. rewrite Hk. cbn.
  by rewrite Hit.
Qed.

Lemma pick_iter_exhausted default k it w :
  default !! k = Some (PIter it) ->
  iterators w !! it = Some [] ->
  pick default k w = (w, inl StopIteration).
Proof.
  intros Hk Hit. unfold pick, dict_get, bind. rewrite Hk. cbn.
  by rewrite Hit.
Qed.

Lemma pick_str default k s w :
  default !! k = Some (PStr s) ->
  pick default k w = (w, inr (PStr s)).
Proof. intros Hk. unfold pick, dict_get, bind. by rewrite Hk. Qed.

(** Two distinct iterators over the same items advance in step: the loop
    draws the layers with the items in order while they last, and raises
    [StopIteration] at the first layer after the last item. *)
Lemma plot_loop_lockstep default e c :
  default !! "edgecolor" = Some (PIter e) ->
  default !! "color" = Some (PIter c) ->
  e <> c ->
  forall (layers : list Layer) (l : list Color) i w,
    iterators w !! e = Some l ->
    iterators w !! c = Some l ->
    (length layers <= length l ->
     exists w',
       plot_loop default layers i w = (w', inr (i + length layers)) /\
       axes w' = (axes w ++ zip_with paired_artist layers l)%list /\
       grid w' = grid w /\ style w' = style w /\ saved w' = saved w) /\
    (length l < length layers ->
     (plot_loop default layers i w).2 = inl StopIteration).
Proof.
  intros He Hc Hne. induction layers as [|s layers IH]; intros l i w Hle Hlc.
  - split; [|cbn; lia]. intros _. exists w. cbn.
    rewrite app_nil_r, Nat.add_0_r. done.
  - destruct l as [|col l].
    + split; [cbn; lia|]. intros _. cbn [plot_loop].
      by rewrite (bind_err _ _ _ _ _ (pick_iter_exhausted _ _ _ _ He Hle)).
    + cbn [plot_loop].
      rewrite (bind_ok _ _ _ _ _ (pick_iter _ _ _ _ _ _ He Hle)).
      erewrite bind_ok; last first.
      { apply (pick_iter _ _ c col l); [done|]. cbn.
        by rewrite lookup_insert_ne. }
      erewrite bind_ok by reflexivity.
      match goal with |- context [plot_loop _ _ _ ?w0] => set (w3 := w0) end.
      destruct (IH l (i + 1) w3) as [IHok IHstop].
      { cbn. rewrite lookup_insert_ne by done. apply lookup_insert_eq. }
      { cbn. apply lookup_insert_eq. }
      split.
      * intros Hlen. cbn in Hlen.
        destruct IHok as (w' & Hrun & Hax & Hg & Hs & Hsv); [lia|].
        exists w'. rewrite Hrun. cbn in *.
        split; [f_equal; f_equal; lia|].
        split; [by rewrite Hax, <- app_assoc|done].
      * intros Hlen. cbn in Hlen. apply IHstop. lia.
Qed.

(** With a literal string under a setting, the loop hands that string to
    every layer it draws. *)
Lemma plot_loop_literal default (layers : list Layer) :
  forall i w,
    exists new,
      axes (plot_loop default layers i w).1 = (axes w ++ new)%list /\
      (forall s, default !! "edgecolor" = Some (PStr s) ->
         Forall (fun a => art_edgecolor a = PStr s) new) /\
      (forall s, default !! "color" = Some (PStr s) ->
         Forall (fun a => art_color a = PStr s) new).
Proof.
  assert (Hpick : forall k w, axes (pick default k w).1 = axes w).
  { intros k w. unfold pick, dict_get, bind, next, ret, raise.
    repeat (case_match; simplify_eq/=; try done). }
  induction layers as [|s layers IH]; intros i w.
  - exists []. cbn. by rewrite app_nil_r.
  - cbn [plot_loop]. unfold bind at 1.
    pose proof (Hpick "edgecolor" w) as H1.
    destruct (pick default "edgecolor" w) as [w1 [e|edge]] eqn:Hedge;
      cbn in H1.
    { exists []. cbn. by rewrite app_nil_r. }
    unfold bind at 1.
    pose proof (Hpick "color" w1) as H2.
    destruct (pick default "color" w1) as [w2 [e|col]] eqn:Hcol; cbn in H2.
    { exists []. cbn. rewrite app_nil_r. split; [congruence|done]. }
    erewrite bind_ok by reflexivity.
    match goal with |- context [plot_loop _ _ _ ?w0] => set (w3 := w0) end.
    destruct (IH (i + 1) w3) as (new & Hax & Hedges & Hcols).
    exists (mkArtist s col edge :: new). split.
    + rewrite Hax. cbn. by rewrite H2, H1, <- app_assoc.
    + split; intros lit Hlit; constructor; auto; cbn.
      * rewrite (pick_str _ _ _ _ Hlit) in Hedge. congruence.
      * rewrite (pick_str _ _ _ _ Hlit) in Hcol. congruence.
Qed.

(** What [plot_shapefile] has set up when its loop starts with the default
    settings: two distinct fresh iterators over the palette. *)
Lemma plot_shapefile_default_loop (layers : list Layer) w :
  exists e c default w0,
    default !! "edgecolor" = Some (PIter e) /\
    default !! "color" = Some (PIter c) /\
    default !! "save" = Some (PStr "") /\
    e <> c /\
    iterators w0 !! e = Some Paired /\
    iterators w0 !! c = Some Paired /\
    axes w0 = [] /\
    plot_shapefile Paired layers None w =
      (let* i := plot_loop default layers 0 in
       ax_grid false >>
       set_style "whitegrid" >>
       let* save := dict_get default "save" in
       if truthy save then
         let* save' := dict_get default "save" in
         let* fmt := dict_get default "format" in
         savefig save' fmt
       else ret tt) w0.
Proof.
  set (e := fresh (dom (iterators w))).
  set (its1 := <[e := Paired]> (iterators w)).
  set (c := fresh (dom its1)).
  assert (Hne : e <> c).
  { intros Heq. apply (is_fresh (dom its1)). fold c. rewrite <- Heq.
    apply elem_of_dom. exists Paired. apply lookup_insert_eq. }
  eexists e, c, _, _. repeat split; last first.
  - unfold plot_shapefile. erewrite bind_ok by reflexivity.
    erewrite bind_ok by reflexivity. cbn [merge_settings].
    erewrite bind_ok by reflexivity. reflexivity.
  - done.
  - cbn. apply lookup_insert_eq.
  - cbn. rewrite lookup_insert_ne by done. apply lookup_insert_eq.
  - done.
  - by rewrite !lookup_insert_ne by done.
  - apply lookup_insert_eq.
  - rewrite lookup_insert_ne by done. apply lookup_insert_eq.
Qed.

(** With the default settings and no more layers than palette colours, the
    i-th layer is drawn with the i-th colour of the palette, for fill and
    for edge. *)
Lemma plot_shapefile_default_within_palette (layers : list Layer) w :
  length layers <= length Paired ->
  (plot_shapefile Paired layers None w).2 = inr tt /\
  axes (plot_shapefile Paired layers None w).1
    = zip_with paired_artist layers Paired.
Proof.
  intros Hlen.
  destruct (plot_shapefile_default_loop layers w)
    as (e & c & default & w0 & He & Hc & Hsave & Hne & Hie & Hic & Hax & ->).
  destruct (plot_loop_lockstep default e c He Hc Hne layers Paired 0 w0 Hie Hic)
    as [Hok _].
  destruct (Hok Hlen) as (w' & Hrun & Haxes & _).
  rewrite (bind_ok _ _ _ _ _ Hrun).
  erewrite bind_ok by reflexivity. erewrite bind_ok by reflexivity.
  erewrite bind_ok by (unfold dict_get; rewrite Hsave; reflexivity).
  cbn. by rewrite Haxes, Hax.
Qed.

(** C7, where the code departs from it: the default colour sources are
    plain iterators over the palette, not cycles.  With more layers than
    palette colours, the call raises [StopIteration] at the first layer
    beyond the palette. *)
Theorem plot_shapefile_default_beyond_palette (layers : list Layer) w :
  length Paired < length layers ->
  (plot_shapefile Paired layers None w).2 = inl StopIteration.
Proof.
  intros Hlen.
  destruct (plot_shapefile_default_loop layers w)
    as (e & c & default & w0 & He & Hc & Hsave & Hne & Hie & Hic & Hax & ->).
  destruct (plot_loop_lockstep default e c He Hc Hne layers Paired 0 w0 Hie Hic)
    as [_ Hstop].
  specialize (Hstop Hlen).
  destruct (plot_loop default layers 0 w0) as [w' r] eqn:Hrun.
  cbn in Hstop. subst r. by rewrite (bind_err _ _ _ _ _ Hrun).
Qed.

(** A literal string supplied as the one setting for the edge (or the fill)
    is the edge (fill) colour of every layer drawn. *)
Lemma plot_shapefile_literal (layers : list Layer) (lit : string) w :
  Forall (fun a => art_edgecolor a = PStr lit)
    (axes (plot_shapefile Paired layers
             (Some [("edgecolor", PStr lit)]) w).1) /\
  Forall (fun a => art_color a = PStr lit)
    (axes (plot_shapefile Paired layers (Some [("color", PStr lit)]) w).1).
Proof.
  assert (Hgen : forall k,
    (k = "edgecolor" \/ k = "color") ->
    exists default w0 new,
      default !! k = Some (PStr lit) /\
      axes (plot_shapefile Paired layers (Some [(k, PStr lit)]) w).1 = new /\
      axes (plot_loop default layers 0 w0).1 = ([] ++ new)%list /\
      (forall s, default !! "edgecolor" = Some (PStr s) ->
         Forall (fun a => art_edgecolor a = PStr s) new) /\
      (forall s, default !! "color" = Some (PStr s) ->
         Forall (fun a => art_color a = PStr s) new)).
  { intros k Hk. unfold plot_shapefile.
    erewrite bind_ok by reflexivity. erewrite bind_ok by reflexivity.
    cbn [merge_settings foldl]. cbv zeta. erewrite bind_ok by reflexivity.
    match goal with
    | |- context [bind (plot_loop ?d _ _) _ ?w1] =>
        set (default := d); set (w0 := w1)
    end.
    destruct (plot_loop_literal default layers 0 w0)
      as (new & Hax & Hedges & Hcols).
    exists default, w0, new.
    split; [apply lookup_insert_eq|]. split; [|done].
    unfold bind at 1.
    destruct (plot_loop default layers 0 w0) as [w' [err|i]]; [done|].
    cbn in Hax. unfold bind, ax_grid, set_style, dict_get, savefig, ret, raise.
    cbn. repeat (case_match; simplify_eq/=; try done). }
  split.
  - destruct (Hgen "edgecolor") as (d & w0 & new & Hd & -> & _ & He & _);
      [by left|]. by apply He.
  - destruct (Hgen "color") as (d & w0 & new & Hd & -> & _ & _ & Hc);
      [by right|]. by apply Hc.
Qed.

End PlotFacts.

Lemma plot_shapefile_default_beyond_palette_witness :
  (plot_shapefile Ref.Paired12 (seq 0 13) None Ref.plot0).2
    = inl StopIteration.
Proof.
  apply (plot_shapefile_default_beyond_palette Ref.Paired12 (seq 0 13)
           Ref.plot0).
  vm_compute. lia.
Defined.

(** * Further properties of the helpers *)

(** ** load_shapefile and subset_aoi *)

Section VectorMore.

Context {Geometry : Type} `{!@GeoLib Geometry}.

Implicit Types (w : @World Geometry) (df : @GeoDataFrame Geometry).

#[local] Abbreviation frames := (@frames Geometry _).

Lemma bind_ext {St A B} (c : M St A) (k1 k2 : A -> M St B) s :
  (forall a s', k1 a s' = k2 a s') -> bind c k1 s = bind c k2 s.
Proof. intros Hk. unfold bind. destruct (c s) as [s' [e|a]]; auto. Qed.

Lemma isin_same_members (series S S' : list Value) :
  (forall v, v ∈ S <-> v ∈ S') -> isin series S = isin series S'.
Proof.
  intros Hmem. unfold isin. apply map_ext. intros v.
  apply bool_decide_ext, Hmem.
Qed.

Lemma truthy_list_same_members (S S' : list Value) :
  (forall v, v ∈ S <-> v ∈ S') -> truthy_list S = truthy_list S'.
Proof.
  intros Hmem. destruct S as [|z S], S' as [|z' S']; try done.
  - exfalso. eapply not_elem_of_nil, Hmem. left.
  - exfalso. eapply not_elem_of_nil, Hmem. left.
Qed.

Lemma frames_read_file fp path : frames fp (read_file path).
Proof.
  intros w. unfold read_file. destruct (files w !! path); [|done].
  apply frames_alloc.
Qed.

Lemma frames_load_shapefile fp path zipcodes :
  frames fp (load_shapefile path zipcodes).
Proof.
  unfold load_shapefile. apply frames_bind; [apply frames_read_file|].
  intros data. destruct (truthy_list zipcodes); [|apply frames_ret].
  apply frames_bind; [apply frames_df_getitem|]. intros col.
  apply frames_bind; [apply frames_df_getitem_mask|]. intros l.
  apply frames_ret.
Qed.

Lemma string_ne_app_x (p : string) : p <> p +:+ "x".
Proof.
  intros Heq. apply (f_equal String.length) in Heq.
  rewrite string_app_length in Heq. cbn in Heq. lia.
Qed.

(** X1: the identifiers act as a set: two lists with the same members,
    in any order and with any repetitions, give the same outcome. *)
Theorem load_shapefile_identifier_set path (S S' : list Value) w :
  (forall v, v ∈ S <-> v ∈ S') ->
  load_shapefile path S w = load_shapefile path S' w.
Proof.
  intros Hmem. unfold load_shapefile.
  rewrite (truthy_list_same_members S S' Hmem).
  apply bind_ext. intros data w1. destruct (truthy_list S'); [|done].
  apply bind_ext. intros col w2.
  by rewrite (isin_same_members col S S' Hmem).
Qed.

(** X2: a path that holds no vector file makes [load_shapefile] raise the
    reader's error, whatever the identifiers; the world is left as it was. *)
Theorem load_shapefile_missing_file path zipcodes w :
  files w !! path = None ->
  load_shapefile path zipcodes w = (w, inl (FileNotFoundError path)).
Proof.
  intros Hnone. unfold load_shapefile. erewrite bind_err; [done|].
  unfold read_file. by rewrite Hnone.
Qed.

(** X3: on a dataset without the column ZCTA5CE10, any non-empty identifier
    list makes [load_shapefile] raise [KeyError] for that column. *)
Theorem load_shapefile_missing_column path zipcodes w
    (D : @GeoDataFrame Geometry) :
  files w !! path = Some D ->
  "ZCTA5CE10" ∉ columns D ->
  zipcodes <> [] ->
  (load_shapefile path zipcodes w).2 = inl (KeyError "ZCTA5CE10").
Proof.
  intros Hfile Hmiss Hne. unfold load_shapefile.
  assert (Hread : read_file path w =
    (set_heap (<[fresh (dom (heap w)) := D]> (heap w)) w,
     inr (fresh (dom (heap w))))).
  { unfold read_file. by rewrite Hfile. }
  rewrite (bind_ok _ _ _ _ _ Hread).
  destruct zipcodes as [|z zs]; [done|]. cbn [truthy_list].
  erewrite bind_err; [done|].
  rewrite (df_getitem_spec _ _ _ D) by apply lookup_insert_eq.
  by rewrite (getitem_missing _ _ Hmiss).
Qed.

(** X4: [load_shapefile] only reads: whatever it returns or raises, the disk
    is the same afterwards and every object that was live still is,
    unchanged. *)
Theorem load_shapefile_read_only path zipcodes w :
  files (load_shapefile path zipcodes w).1 = files w /\
  heap w ⊆ heap (load_shapefile path zipcodes w).1.
Proof.
  split.
  - apply map_eq. intros p.
    destruct (frames_load_shapefile (p +:+ "x") path zipcodes w) as [_ Hf].
    apply Hf, string_ne_app_x.
  - by destruct (frames_load_shapefile "" path zipcodes w) as [Hh _].
Qed.

End VectorMore.

Lemma load_shapefile_identifier_set_witness :
  load_shapefile "zcta.shp" [VStr "94110"; VStr "94103"] Ref.world0
  = load_shapefile "zcta.shp" [VStr "94103"; VStr "94110"; VStr "94103"]
      Ref.world0.
Proof.
  apply (load_shapefile_identifier_set "zcta.shp"
           [VStr "94110"; VStr "94103"]
           [VStr "94103"; VStr "94110"; VStr "94103"] Ref.world0).
  intros v. rewrite !elem_of_cons, !elem_of_nil. tauto.
Defined.

Lemma load_shapefile_missing_file_witness :
  load_shapefile "nowhere.shp" [VStr "94110"] Ref.world0
  = (Ref.world0, inl (FileNotFoundError "nowhere.shp")).
Proof.
  apply (load_shapefile_missing_file "nowhere.shp" [VStr "94110"] Ref.world0).
  vm_compute. reflexivity.
Defined.

Lemma load_shapefile_missing_column_witness :
  (load_shapefile "parcels.shp" [VStr "94110"] Ref.world0).2
  = inl (KeyError "ZCTA5CE10").
Proof.
  apply (load_shapefile_missing_column "parcels.shp" [VStr "94110"]
           Ref.world0 Ref.parcels).
  - vm_compute. reflexivity.
  - simpl. intros Hin. apply list_elem_of_singleton in Hin. discriminate.
  - discriminate.
Defined.

Section ClipMore.

Context {Geometry : Type} `{!@GeoLib Geometry}.

Implicit Types (w : @World Geometry) (df : @GeoDataFrame Geometry).

Lemma gpd_overlay_spec a b w (A B : @GeoDataFrame Geometry) :
  heap w !! a = Some A ->
  heap w !! b = Some B ->
  gpd_overlay a b w =
    match overlay_intersection A B with
    | inl e => (w, inl e)
    | inr R =>
        (set_heap (<[fresh (dom (heap w)) := R]> (heap w)) w,
         inr (fresh (dom (heap w))))
    end.
Proof.
  intros HA HB. unfold gpd_overlay.
  rewrite (bind_ok _ _ _ _ _ (deref_some _ _ _ HA)).
  rewrite (bind_ok _ _ _ _ _ (deref_some _ _ _ HB)).
  unfold bind, lift. by destruct (overlay_intersection A B).
Qed.

(** Run on a world where both references are live frames, the intersection
    branch prints, overlays, prints again and hands the overlay to the
    writer. *)
Lemma overlay_attempt_spec aoi shape fp w (A B : @GeoDataFrame Geometry) :
  heap w !! aoi = Some A ->
  heap w !! shape = Some B ->
  exists h',
    heap w ⊆ h' /\
    subset_aoi_try aoi shape fp true w =
      match overlay_intersection A B with
      | inl e =>
          ({| heap := h'; files := files w;
              stdout := stdout w ++ take 1 intersect_log |}, inl e)
      | inr R =>
          let r := write_disk R fp (files w) in
          ({| heap := h'; files := r.1;
              stdout := stdout w ++ intersect_log |},
           match r.2 with inl e => inl e | inr _ => inr true end)
      end.
Proof.
  intros HA HB. unfold subset_aoi_try.
  erewrite bind_ok by reflexivity.
  set (w0 := set_stdout (stdout w ++ ["Intersecting {save_fp} with aoi..."]) w).
  pose proof (gpd_overlay_spec aoi shape w0 A B HA HB) as Hs.
  destruct (overlay_intersection A B) as [e|R];
    rewrite (bind_step _ _ _ _ _ Hs); clear Hs.
  { exists (heap w). by split. }
  set (l := fresh (dom (heap w0))).
  set (w1 := set_heap (<[l := R]> (heap w0)) w0).
  erewrite bind_ok by reflexivity.
  set (w2 := set_stdout _ w1).
  assert (HR : heap w2 !! l = Some R) by apply lookup_insert_eq.
  rewrite (bind_step _ _ _ _ _ (to_file_spec _ _ _ _ HR)).
  exists (heap w2). split.
  { apply insert_subseteq, not_elem_of_dom, is_fresh. }
  unfold set_files, w2, set_stdout, w1, set_heap, w0, intersect_log. cbn.
  rewrite <- app_assoc.
  by destruct (write_disk R fp (files w)) as [fs [e|[]]].
Qed.

Lemma write_disk_inr df p fs fs' u :
  write_disk df p fs = (fs', inr u) ->
  to_file_outcome df p fs = Written /\ fs' = <[p := df]> fs.
Proof.
  unfold write_disk.
  destruct (to_file_outcome df p fs) as [|e [d|]]; intros Hw; by simplify_eq.
Qed.

Lemma to_file_inr l p w w' u :
  to_file l p w = (w', inr u) ->
  exists df,
    to_file_outcome df p (files w) = Written /\
    files w' = <[p := df]> (files w).
Proof.
  unfold to_file, bind, deref.
  destruct (heap w !! l) as [df|]; [|discriminate]. intros Hw.
  destruct (write_disk df p (files w)) as [fs' [e|u']] eqn:Hdisk;
    cbn in Hw; [discriminate|].
  injection Hw as <- _.
  apply write_disk_inr in Hdisk as [Hout ->]. by exists df.
Qed.

(** An attempt that completes ends with a completed write to the path. *)
Lemma subset_aoi_try_written aoi shape fp intersect w w' b :
  subset_aoi_try aoi shape fp intersect w = (w', inr b) ->
  exists df fs,
    to_file_outcome df fp fs = Written /\ files w' !! fp = Some df.
Proof.
  unfold subset_aoi_try. destruct intersect; intros Hr.
  - apply bind_inr in Hr as (? & ? & _ & Hr).
    apply bind_inr in Hr as (? & ? & _ & Hr).
    apply bind_inr in Hr as (? & ? & _ & Hr).
    apply bind_inr in Hr as (? & ? & Hw & Hr).
    apply to_file_inr in Hw as (df & Hout & Hfiles).
    cbv [ret] in Hr. simplify_eq. eexists df, _. split; [exact Hout|].
    rewrite Hfiles. apply lookup_insert_eq.
  - apply bind_inr in Hr as (? & ? & _ & Hr).
    apply bind_inr in Hr as (? & ? & _ & Hr).
    apply bind_inr in Hr as (? & ? & _ & Hr).
    apply bind_inr in Hr as (? & ? & _ & Hr).
    apply bind_inr in Hr as (? & ? & Hw & Hr).
    apply to_file_inr in Hw as (df & Hout & Hfiles).
    cbv [ret] in Hr. simplify_eq. eexists df, _. split; [exact Hout|].
    rewrite Hfiles. apply lookup_insert_eq.
Qed.

(** The two ways [subset_aoi] ends. *)
Lemma subset_aoi_cases aoi shape fp intersect w :
  (exists w1 b, subset_aoi_try aoi shape fp intersect w = (w1, inr b) /\
     subset_aoi aoi shape fp intersect w = (w1, inr true)) \/
  (exists w1 e,
     subset_aoi_try aoi shape fp intersect w = (w1, inl e) /\
     ((exists w2 b,
         subset_aoi_try aoi shape fp false
           (set_stdout (stdout w1 ++ retry_log e) w1) = (w2, inr b) /\
         subset_aoi aoi shape fp intersect w = (w2, inr true)) \/
      (exists w2 e',
         subset_aoi_try aoi shape fp false
           (set_stdout (stdout w1 ++ retry_log e) w1) = (w2, inl e') /\
         (subset_aoi aoi shape fp intersect w).2 = inr false))).
Proof.
  unfold subset_aoi, try_except.
  destruct (subset_aoi_try aoi shape fp intersect w) as [w1 [e|b]] eqn:Htry.
  - right. exists w1, e. split; [done|]. rewrite retry_is_join_attempt.
    destruct (subset_aoi_try aoi shape fp false (set_stdout _ w1))
      as [w2 [e'|b2]] eqn:Hre.
    + right. by exists w2, e'.
    + left. exists w2, b2. split; [done|].
      by apply subset_aoi_try_true in Hre as ->.
  - left. exists w1, b. split; [done|].
    by apply subset_aoi_try_true in Htry as ->.
Qed.

Lemma subset_aoi_true_written aoi shape fp intersect w :
  (subset_aoi aoi shape fp intersect w).2 = inr true ->
  exists df fs,
    to_file_outcome df fp fs = Written /\
    files (subset_aoi aoi shape fp intersect w).1 !! fp = Some df.
Proof.
  intros Htrue.
  destruct (subset_aoi_cases aoi shape fp intersect w)
    as [(w1 & b & Htry & Hrun)|(w1 & e & Htry &
         [(w2 & b & Hre & Hrun)|(w2 & e' & Hre & Hrun)])].
  - rewrite Hrun. by eapply subset_aoi_try_written.
  - rewrite Hrun. by eapply subset_aoi_try_written.
  - rewrite Hrun in Htrue. discriminate.
Qed.

(** What a completed join attempt selected and wrote, as one frame. *)
Lemma join_attempt_selected aoi shape fp w w1 b (A B : @GeoDataFrame Geometry) :
  heap w !! aoi = Some A ->
  heap w !! shape = Some B ->
  subset_aoi_try aoi shape fp false w = (w1, inr b) ->
  exists sel,
    join_selection A B = inr sel /\
    to_file_outcome sel fp (files w) = Written /\
    files w1 = <[fp := sel]> (files w) /\
    stdout w1 = stdout w.
Proof.
  intros HA HB Hrun.
  destruct (join_attempt_spec aoi shape fp w A B HA HB) as (h' & _ & Hspec).
  rewrite Hspec in Hrun. clear Hspec.
  destruct (join_selection A B) as [e|sel]; [discriminate|].
  exists sel. split; [done|]. cbn in Hrun.
  destruct (write_disk sel fp (files w)) as [fs [e|u]] eqn:Hdisk;
    cbn in Hrun; simplify_eq.
  by apply write_disk_inr in Hdisk as [? ->].
Qed.

(** The frame at the output path after a call in join mode that returned
    [True]. *)
Lemma subset_aoi_join_true_selected aoi shape fp w
    (A B : @GeoDataFrame Geometry) :
  heap w !! aoi = Some A ->
  heap w !! shape = Some B ->
  (subset_aoi aoi shape fp false w).2 = inr true ->
  exists sel,
    join_selection A B = inr sel /\
    files (subset_aoi aoi shape fp false w).1 !! fp = Some sel.
Proof.
  intros HA HB Htrue.
  destruct (subset_aoi_cases aoi shape fp false w)
    as [(w1 & b & Htry & Hrun)|(w1 & e & Htry &
         [(w2 & b & Hre & Hrun)|(w2 & e' & Hre & Hrun)])].
  - rewrite Hrun.
    destruct (join_attempt_selected _ _ _ _ _ _ A B HA HB Htry)
      as (sel & Hsel & _ & Hfiles & _).
    exists sel. split; [done|]. cbn. rewrite Hfiles. apply lookup_insert_eq.
  - rewrite Hrun.
    destruct (frames_subset_aoi_try aoi shape fp false w) as [Hheap _].
    rewrite Htry in Hheap. cbn in Hheap.
    destruct (join_attempt_selected aoi shape fp
                (set_stdout (stdout w1 ++ retry_log e) w1) w2 b A B
                (lookup_weaken _ _ _ _ HA Hheap)
                (lookup_weaken _ _ _ _ HB Hheap) Hre)
      as (sel & Hsel & _ & Hfiles & _).
    exists sel. split; [done|]. cbn. rewrite Hfiles. apply lookup_insert_eq.
  - rewrite Hrun in Htrue. discriminate.
Qed.

Lemma write_disk_written df p fs :
  to_file_outcome df p fs = Written ->
  write_disk df p fs = (<[p := df]> fs, inr tt).
Proof. unfold write_disk. by intros ->. Qed.

Lemma filter_no_member (c : string) (rs : list (@Row Geometry)) :
  filter (fun r => cell c r ∈ []) rs = [].
Proof.
  induction rs as [|r rs IH]; [done|]. rewrite filter_cons, IH.
  destruct (decide (cell c r ∈ [])) as [Hin|]; [|done].
  by apply elem_of_nil in Hin.
Qed.

(** X5: intersection mode, when nothing fails: the overlay of [A] and [B]
    is what the output path holds afterwards, the call returns [True], and
    it has printed its two progress lines and nothing else. *)
Theorem subset_aoi_intersection_written aoi shape fp w
    (A B R : @GeoDataFrame Geometry) :
  heap w !! aoi = Some A ->
  heap w !! shape = Some B ->
  overlay_intersection A B = inr R ->
  to_file_outcome R fp (files w) = Written ->
  (subset_aoi aoi shape fp true w).2 = inr true /\
  files (subset_aoi aoi shape fp true w).1 = <[fp := R]> (files w) /\
  stdout (subset_aoi aoi shape fp true w).1
    = (stdout w ++ intersect_log)%list.
Proof.
  intros HA HB HR Hout.
  destruct (overlay_attempt_spec aoi shape fp w A B HA HB) as (h' & _ & Hspec).
  rewrite HR in Hspec. cbv zeta in Hspec.
  rewrite (write_disk_written _ _ _ Hout) in Hspec.
  unfold subset_aoi, try_except. by rewrite Hspec.
Qed.

(** X6: intersection mode, when the overlay raises (as it does on mixed
    polygon and point geometries) and the join strategy works: the call
    still returns [True], the output path holds the join selection, whole
    rows of [B], and the overlay's error message is in the log between the
    first progress line and the notice of the retry. *)
Theorem subset_aoi_fallback_recovers aoi shape fp w e
    (A B sel : @GeoDataFrame Geometry) :
  heap w !! aoi = Some A ->
  heap w !! shape = Some B ->
  overlay_intersection A B = inl e ->
  join_selection A B = inr sel ->
  to_file_outcome sel fp (files w) = Written ->
  (subset_aoi aoi shape fp true w).2 = inr true /\
  files (subset_aoi aoi shape fp true w).1 = <[fp := sel]> (files w) /\
  stdout (subset_aoi aoi shape fp true w).1
    = (stdout w ++ take 1 intersect_log ++ retry_log e)%list.
Proof.
  intros HA HB He Hsel Hout.
  destruct (overlay_attempt_spec aoi shape fp w A B HA HB)
    as (h1 & Hsub & Hspec).
  rewrite He in Hspec.
  unfold subset_aoi, try_except. rewrite Hspec, retry_is_join_attempt.
  match goal with
  | |- context [subset_aoi_try _ _ _ false ?w0] => set (w1 := w0)
  end.
  destruct (join_attempt_spec aoi shape fp w1 A B) as (h2 & _ & Hjoin).
  { cbn. by eapply lookup_weaken. }
  { cbn. by eapply lookup_weaken. }
  rewrite Hsel in Hjoin. cbv zeta in Hjoin. cbn [files w1 set_stdout] in Hjoin.
  rewrite (write_disk_written _ _ _ Hout) in Hjoin.
  rewrite Hjoin. cbn. by rewrite <- app_assoc.
Qed.

(** X7: [True] is never reported without a file: whenever [subset_aoi]
    returns [True], in either mode, a dataset is present at the output
    path. *)
Theorem subset_aoi_true_file_exists aoi shape fp intersect w :
  (subset_aoi aoi shape fp intersect w).2 = inr true ->
  is_Some (files (subset_aoi aoi shape fp intersect w).1 !! fp).
Proof.
  intros Htrue.
  destruct (subset_aoi_true_written aoi shape fp intersect w Htrue)
    as (df & _ & _ & Hfile).
  by exists df.
Qed.

(** X8: when the writer cannot write to the output path, whatever the frame
    and the state of the disk, [subset_aoi] returns [False] in either mode
    and for any inputs. *)
Theorem subset_aoi_unwritable_path aoi shape fp intersect w :
  (forall df fs, to_file_outcome df fp fs <> Written) ->
  (subset_aoi aoi shape fp intersect w).2 = inr false.
Proof.
  intros Hfail.
  destruct (subset_aoi_cases aoi shape fp intersect w)
    as [(w1 & b & Htry & _)|(w1 & e & _ &
         [(w2 & b & Hre & _)|(w2 & e' & _ & Hrun)])].
  - apply subset_aoi_try_written in Htry as (df & fs & Hout & _).
    by destruct (Hfail df fs).
  - apply subset_aoi_try_written in Hre as (df & fs & Hout & _).
    by destruct (Hfail df fs).
  - done.
Qed.

(** X9: in intersection mode [True] does not tell which strategy produced
    the file: the output path holds either the overlay of [A] and [B] or,
    after a failed first attempt, the join selection of whole rows of [B]. *)
Theorem subset_aoi_true_overlay_or_selection aoi shape fp w
    (A B : @GeoDataFrame Geometry) :
  heap w !! aoi = Some A ->
  heap w !! shape = Some B ->
  (subset_aoi aoi shape fp true w).2 = inr true ->
  (exists R,
     overlay_intersection A B = inr R /\
     files (subset_aoi aoi shape fp true w).1 !! fp = Some R) \/
  (exists sel,
     join_selection A B = inr sel /\
     files (subset_aoi aoi shape fp true w).1 !! fp = Some sel).
Proof.
  intros HA HB Htrue.
  destruct (subset_aoi_cases aoi shape fp true w)
    as [(w1 & b & Htry & Hrun)|(w1 & e & Htry &
         [(w2 & b & Hre & Hrun)|(w2 & e' & Hre & Hrun)])].
  - left. rewrite Hrun.
    destruct (overlay_attempt_spec aoi shape fp w A B HA HB)
      as (h' & _ & Hspec).
    rewrite Hspec in Htry. clear Hspec.
    destruct (overlay_intersection A B) as [e|R]; [discriminate|].
    exists R. split; [done|]. cbv zeta in Htry.
    destruct (write_disk R fp (files w)) as [fs [e|u]] eqn:Hdisk;
      cbn in Htry; simplify_eq.
    apply write_disk_inr in Hdisk as [_ ->]. cbn. apply lookup_insert_eq.
  - right. rewrite Hrun.
    destruct (frames_subset_aoi_try aoi shape fp true w) as [Hheap _].
    rewrite Htry in Hheap. cbn in Hheap.
    destruct (join_attempt_selected aoi shape fp
                (set_stdout (stdout w1 ++ retry_log e) w1) w2 b A B
                (lookup_weaken _ _ _ _ HA Hheap)
                (lookup_weaken _ _ _ _ HB Hheap) Hre)
      as (sel & Hsel & _ & Hfiles & _).
    exists sel. split; [done|]. cbn. rewrite Hfiles. apply lookup_insert_eq.
  - rewrite Hrun in Htrue. discriminate.
Qed.

Lemma write_disk_refused df p fs e :
  to_file_outcome df p fs = WriteFailed e (fs !! p) ->
  write_disk df p fs = (fs, inl e).
Proof.
  unfold write_disk. intros ->. destruct (fs !! p) as [d|] eqn:Hp.
  - by rewrite insert_id.
  - by rewrite delete_id.
Qed.

(** A join attempt on datasets whose join has no rows, with a writer that
    refuses a frame without rows: the attempt raises and the disk is as it
    was. *)
Lemma join_attempt_disjoint aoi shape fp w (A B J : @GeoDataFrame Geometry) :
  heap w !! aoi = Some A ->
  heap w !! shape = Some B ->
  sjoin_inner_intersects A B = inr J ->
  rows J = [] ->
  (forall df fs, rows df = [] ->
     exists e, to_file_outcome df fp fs = WriteFailed e (fs !! fp)) ->
  exists e w1,
    subset_aoi_try aoi shape fp false w = (w1, inl e) /\
    files w1 = files w /\
    heap w ⊆ heap w1.
Proof.
  intros HA HB HJ Hrows Hrefuse.
  destruct (join_attempt_spec aoi shape fp w A B HA HB) as (h' & Hsub & ->).
  unfold join_selection. rewrite HJ.
  destruct (getitem J "osm_id") as [e|osm_id] eqn:Hids.
  { by exists e, (set_heap h' w). }
  destruct (getitem B "osm_id") as [e|col] eqn:Hcol.
  { by exists e, (set_heap h' w). }
  cbv zeta. rewrite (getitem_mask_isin _ _ _ _ Hcol).
  apply getitem_inr in Hids as [_ ->]. rewrite Hrows. cbn [map].
  destruct (Hrefuse (select_isin "osm_id" [] B) (files w)) as [e He].
  { unfold select_isin. cbn. apply filter_no_member. }
  rewrite (write_disk_refused _ _ _ _ He). cbn.
  eexists e, _. split; [reflexivity|]. split; [by destruct w|done].
Qed.

(** X10: join mode on datasets that do not overlap, with a writer that
    refuses a frame without rows (as the shapefile writer of geopandas
    does): when the join has no rows, both attempts end in the refused
    write or in a failed lookup, the call returns [False], and the disk is
    as it was; no empty dataset is written. *)
Theorem subset_aoi_join_disjoint aoi shape fp w
    (A B J : @GeoDataFrame Geometry) :
  heap w !! aoi = Some A ->
  heap w !! shape = Some B ->
  sjoin_inner_intersects A B = inr J ->
  rows J = [] ->
  (forall df fs, rows df = [] ->
     exists e, to_file_outcome df fp fs = WriteFailed e (fs !! fp)) ->
  (subset_aoi aoi shape fp false w).2 = inr false /\
  files (subset_aoi aoi shape fp false w).1 = files w.
Proof.
  intros HA HB HJ Hrows Hrefuse.
  destruct (join_attempt_disjoint aoi shape fp w A B J HA HB HJ Hrows Hrefuse)
    as (e1 & w1 & Htry & Hfiles1 & Hheap1).
  destruct (join_attempt_disjoint aoi shape fp
              (set_stdout (stdout w1 ++ retry_log e1) w1) A B J
              (lookup_weaken _ _ _ _ HA Hheap1)
              (lookup_weaken _ _ _ _ HB Hheap1) HJ Hrows Hrefuse)
    as (e2 & w2 & Hre & Hfiles2 & _).
  unfold subset_aoi, try_except.
  rewrite Htry, retry_is_join_attempt, Hre. cbn.
  split; [done|]. by rewrite Hfiles2.
Qed.

End ClipMore.

Lemma subset_aoi_intersection_written_witness :
  (subset_aoi 1%positive 2%positive "out.shp" true Ref.world0).2
    = inr true /\
  files (subset_aoi 1%positive 2%positive "out.shp" true Ref.world0).1
    = <["out.shp" :=
          {| crs := "EPSG:4326";
             columns := ["name"; "osm_id"; "kind"];
             rows :=
               [mkRow 0 (5, 7)%Z
                  ({["name" := VStr "downtown"]}
                   ∪ {["osm_id" := VStr "a"; "kind" := VStr "road"]});
                mkRow 0 (8, 10)%Z
                  ({["name" := VStr "downtown"]}
                   ∪ {["osm_id" := VStr "c"; "kind" := VStr "path"]})] |}]>
        (files Ref.world0) /\
  stdout (subset_aoi 1%positive 2%positive "out.shp" true Ref.world0).1
    = (stdout Ref.world0 ++ intersect_log)%list.
Proof.
  apply (subset_aoi_intersection_written 1%positive 2%positive "out.shp"
           Ref.world0 Ref.aoi_frame Ref.roads).
  - vm_compute. reflexivity.
  - vm_compute. reflexivity.
  - vm_compute. reflexivity.
  - vm_compute. reflexivity.
Defined.

Lemma subset_aoi_fallback_recovers_witness :
  (subset_aoi 1%positive 3%positive "out.shp" true Ref.world0).2
    = inr true /\
  files (subset_aoi 1%positive 3%positive "out.shp" true Ref.world0).1
    = <["out.shp" :=
          {| crs := "EPSG:4326"; columns := ["osm_id"];
             rows := [mkRow 0 (3, 3)%Z {["osm_id" := VStr "p"]}] |}]>
        (files Ref.world0) /\
  stdout (subset_aoi 1%positive 3%positive "out.shp" true Ref.world0).1
    = (stdout Ref.world0 ++ take 1 intersect_log
       ++ retry_log
            (LibraryError "overlay: only polygon geometries are supported"))%list.
Proof.
  apply (subset_aoi_fallback_recovers 1%positive 3%positive "out.shp"
           Ref.world0
           (LibraryError "overlay: only polygon geometries are supported")
           Ref.aoi_frame Ref.poi).
  - vm_compute. reflexivity.
  - vm_compute. reflexivity.
  - vm_compute. reflexivity.
  - vm_compute. reflexivity.
  - vm_compute. reflexivity.
Defined.

Lemma subset_aoi_true_file_exists_witness :
  is_Some
    (files (subset_aoi 1%positive 3%positive "out.shp" true Ref.world0).1
       !! "out.shp").
Proof.
  apply (subset_aoi_true_file_exists 1%positive 3%positive "out.shp" true
           Ref.world0).
  vm_compute. reflexivity.
Defined.

Lemma subset_aoi_unwritable_path_witness :
  (subset_aoi 1%positive 2%positive "" true Ref.world0).2 = inr false.
Proof.
  apply (subset_aoi_unwritable_path 1%positive 2%positive "" true Ref.world0).
  intros df fs. vm_compute. discriminate.
Defined.

Lemma subset_aoi_true_overlay_or_selection_witness :
  (exists R,
     overlay_intersection Ref.aoi_frame Ref.poi = inr R /\
     files (subset_aoi 1%positive 3%positive "out.shp" true Ref.world0).1
       !! "out.shp" = Some R) \/
  (exists sel,
     join_selection Ref.aoi_frame Ref.poi = inr sel /\
     files (subset_aoi 1%positive 3%positive "out.shp" true Ref.world0).1
       !! "out.shp" = Some sel).
Proof.
  apply (subset_aoi_true_overlay_or_selection 1%positive 3%positive "out.shp"
           Ref.world0 Ref.aoi_frame Ref.poi).
  - vm_compute. reflexivity.
  - vm_compute. reflexivity.
  - vm_compute. reflexivity.
Defined.

Lemma subset_aoi_join_disjoint_witness :
  (subset_aoi 1%positive 2%positive "out.shp" false Ref.world1).2
    = inr false /\
  files (subset_aoi 1%positive 2%positive "out.shp" false Ref.world1).1
    = files Ref.world1.
Proof.
  apply (subset_aoi_join_disjoint 1%positive 2%positive "out.shp" Ref.world1
           Ref.aoi_frame Ref.far_roads
           {| crs := "EPSG:4326";
              columns := ["name"; "index_right"; "osm_id"]; rows := [] |}).
  - vm_compute. reflexivity.
  - vm_compute. reflexivity.
  - vm_compute. reflexivity.
  - reflexivity.
  - intros df fs Hrows. unfold to_file_outcome, Ref.lib, Ref.write.
    rewrite Hrows. by eexists.
Defined.

(** ** plot_shapefile *)

Section PlotMore.

Context {Layer Color : Type} (Paired : list Color).

Implicit Types (w : @PlotWorld Layer Color)
  (default : gmap string (@PyVal Color))
  (gs : option (list (string * @PyVal Color))).

Lemma foldl_insert_lookup (kvs : list (string * @PyVal Color)) default k :
  foldl (fun (d : gmap string PyVal) '(k, v) => <[k := v]> d) default kvs !! k
  = match foldl (fun (d : gmap string PyVal) '(k, v) => <[k := v]> d) ∅ kvs
          !! k with
    | Some v => Some v
    | None => default !! k
    end.
Proof.
  revert default. induction kvs as [|[k' v'] kvs IH]; intros default.
  - cbn. by rewrite lookup_empty.
  - cbn [foldl]. rewrite IH, (IH (<[k' := v']> ∅)).
    destruct (foldl _ ∅ kvs !! k); [done|].
    destruct (decide (k' = k)) as [->|Hne].
    + by rewrite !lookup_insert_eq.
    + by rewrite !lookup_insert_ne, lookup_empty by done.
Qed.

(** A merged setting is the caller's when supplied, the default otherwise. *)
Lemma merge_settings_lookup default gs k :
  merge_settings default gs !! k
  = match supplied gs k with Some v => Some v | None => default !! k end.
Proof.
  destruct gs as [[|kv kvs]|]; cbn [merge_settings supplied]; [done| |done].
  apply foldl_insert_lookup.
Qed.

(** [plot_shapefile] is the body run with the merged settings, in a world
    with two fresh iterators over the palette. *)
Lemma plot_shapefile_unfold (layers : list Layer) gs w :
  plot_shapefile Paired layers gs w
  = plot_body
      (merge_settings
         (default_settings
            (PIter (fresh (dom (iterators w))))
            (PIter (fresh (dom (<[fresh (dom (iterators w)) := Paired]>
                                  (iterators w))))))
         gs)
      layers
      {| iterators :=
           <[fresh (dom (<[fresh (dom (iterators w)) := Paired]>
                           (iterators w))) := Paired]>
             (<[fresh (dom (iterators w)) := Paired]> (iterators w));
         axes := axes w; grid := grid w; style := style w;
         saved := saved w |}.
Proof. reflexivity. Qed.

Lemma pick_keeps default k w :
  axes (pick default k w).1 = axes w /\
  grid (pick default k w).1 = grid w /\
  style (pick default k w).1 = style w /\
  saved (pick default k w).1 = saved w.
Proof.
  unfold pick, dict_get, bind, next, ret, raise.
  repeat (case_match; simplify_eq/=; try done).
Qed.

(** The loop draws; it does not touch the grid, the style or saved files. *)
Lemma plot_loop_keeps default (layers : list Layer) i w w' r :
  plot_loop default layers i w = (w', r) ->
  grid w' = grid w /\ style w' = style w /\ saved w' = saved w.
Proof.
  revert i w. induction layers as [|s layers IH]; intros i w Hrun.
  { cbv [plot_loop ret] in Hrun. by simplify_eq. }
  cbn [plot_loop] in Hrun. unfold bind at 1 in Hrun.
  destruct (pick_keeps default "edgecolor" w) as (_ & Hg1 & Hs1 & Hv1).
  destruct (pick default "edgecolor" w) as [w1 [e|edge]];
    cbn in Hg1, Hs1, Hv1.
  { simplify_eq. by repeat split. }
  unfold bind at 1 in Hrun.
  destruct (pick_keeps default "color" w1) as (_ & Hg2 & Hs2 & Hv2).
  destruct (pick default "color" w1) as [w2 [e|col]];
    cbn in Hg2, Hs2, Hv2.
  { simplify_eq. repeat split; congruence. }
  erewrite bind_ok in Hrun by reflexivity.
  apply IH in Hrun as (-> & -> & ->). cbn. repeat split; congruence.
Qed.

(** The body when the loop raises: the exception leaves at once. *)
Lemma plot_body_loop_raises default (layers : list Layer) w w1 e :
  plot_loop default layers 0 (subplots w).1 = (w1, inl e) ->
  plot_body default layers w = (w1, inl e).
Proof.
  intros Hloop. unfold plot_body. erewrite bind_ok by reflexivity.
  by rewrite (bind_err _ _ _ _ _ Hloop).
Qed.

(** The body when the loop completes and no save path is set. *)
Lemma plot_body_no_save default (layers : list Layer) w w1 i :
  plot_loop default layers 0 (subplots w).1 = (w1, inr i) ->
  default !! "save" = Some (PStr "") ->
  plot_body default layers w =
    ({| iterators := iterators w1; axes := axes w1; grid := false;
        style := "whitegrid"; saved := saved w1 |}, inr tt).
Proof.
  intros Hloop Hsave. unfold plot_body. erewrite bind_ok by reflexivity.
  rewrite (bind_ok _ _ _ _ _ Hloop).
  erewrite bind_ok by reflexivity. erewrite bind_ok by reflexivity.
  erewrite bind_ok by (unfold dict_get; rewrite Hsave; reflexivity).
  done.
Qed.

(** The body when the loop completes and a save path and format are set. *)
Lemma plot_body_save default (layers : list Layer) w w1 i p f :
  plot_loop default layers 0 (subplots w).1 = (w1, inr i) ->
  default !! "save" = Some (PStr p) ->
  p <> "" ->
  default !! "format" = Some (PStr f) ->
  plot_body default layers w =
    ({| iterators := iterators w1; axes := axes w1; grid := false;
        style := "whitegrid"; saved := <[p := (f, axes w1)]> (saved w1) |},
     inr tt).
Proof.
  intros Hloop Hsave Hp Hfmt. unfold plot_body.
  erewrite bind_ok by reflexivity. rewrite (bind_ok _ _ _ _ _ Hloop).
  erewrite bind_ok by reflexivity. erewrite bind_ok by reflexivity.
  erewrite bind_ok by (unfold dict_get; rewrite Hsave; reflexivity).
  assert (Htruthy : truthy (@PStr Color p) = true) by (by destruct p).
  rewrite Htruthy.
  erewrite bind_ok by (unfold dict_get; rewrite Hsave; reflexivity).
  erewrite bind_ok by (unfold dict_get; rewrite Hfmt; reflexivity).
  done.
Qed.

(** What is on the axes after the body is what the loop drew. *)
Lemma plot_body_axes default (layers : list Layer) w :
  axes (plot_body default layers w).1
  = axes (plot_loop default layers 0 (subplots w).1).1.
Proof.
  unfold plot_body. erewrite bind_ok by reflexivity. cbn [subplots fst].
  unfold bind at 1.
  destruct (plot_loop default layers 0 _) as [w1 [e|i]]; cbn [fst]; [done|].
  unfold bind, ax_grid, set_style, dict_get, savefig, ret, raise. cbn.
  repeat (case_match; simplify_eq/=; try done).
Qed.

Lemma default_settings_lookup (e c : @PyVal Color) :
  default_settings e c !! "edgecolor" = Some e /\
  default_settings e c !! "color" = Some c /\
  default_settings e c !! "save" = Some (PStr "") /\
  default_settings e c !! "format" = Some (PStr "png").
Proof.
  unfold default_settings. repeat split; by simplify_map_eq.
Qed.

(** One iterator shared by edge and fill: each layer takes two items, and
    the loop stops at the first layer that cannot have both. *)
Lemma plot_loop_shared default it :
  default !! "edgecolor" = Some (PIter it) ->
  default !! "color" = Some (PIter it) ->
  forall (layers : list Layer) (l : list Color) i w,
    iterators w !! it = Some l ->
    (2 * length layers <= length l ->
     exists w',
       plot_loop default layers i w = (w', inr (i + length layers)) /\
       axes w' = (axes w ++ alternating layers l)%list) /\
    (length l < 2 * length layers ->
     (plot_loop default layers i w).2 = inl StopIteration).
Proof.
  intros He Hc. induction layers as [|s layers IH]; intros l i w Hl.
  - split; [|cbn; lia]. intros _. exists w. cbn.
    by rewrite app_nil_r, Nat.add_0_r.
  - destruct l as [|e [|c l]].
    + split; [cbn; lia|]. intros _. cbn [plot_loop].
      by rewrite (bind_err _ _ _ _ _ (pick_iter_exhausted _ _ _ _ He Hl)).
    + split; [cbn; lia|]. intros _. cbn [plot_loop].
      rewrite (bind_ok _ _ _ _ _ (pick_iter _ _ _ _ _ _ He Hl)).
      erewrite bind_err; [done|].
      apply (pick_iter_exhausted _ _ it); [done|]. apply lookup_insert_eq.
    + cbn [plot_loop].
      rewrite (bind_ok _ _ _ _ _ (pick_iter _ _ _ _ _ _ He Hl)).
      erewrite bind_ok; last first.
      { apply (pick_iter _ _ it c l); [done|]. apply lookup_insert_eq. }
      erewrite bind_ok by reflexivity.
      match goal with |- context [plot_loop _ _ _ ?w0] => set (w3 := w0) end.
      destruct (IH l (i + 1) w3) as [IHok IHstop].
      { apply lookup_insert_eq. }
      split.
      * intros Hlen. cbn in Hlen.
        destruct IHok as (w' & Hrun & Hax); [lia|].
        exists w'. rewrite Hrun. cbn in *.
        split; [f_equal; f_equal; lia|].
        by rewrite Hax, <- app_assoc.
      * intros Hlen. cbn in Hlen. apply IHstop. lia.
Qed.

(** X12: the global style is changed only by a call that gets past its
    loop.  With the default settings the style becomes whitegrid when the
    layers fit the palette and stays what it was when the call aborts
    beyond the palette. *)
Theorem plot_shapefile_default_style (layers : list Layer) w :
  style (plot_shapefile Paired layers None w).1
  = if decide (length layers <= length Paired) then "whitegrid" else style w.
Proof.
  rewrite plot_shapefile_unfold. cbn [merge_settings].
  set (e := fresh (dom (iterators w))).
  set (c := fresh (dom (<[e := Paired]> (iterators w)))).
  assert (Hne : e <> c).
  { intros Heq. apply (is_fresh (dom (<[e := Paired]> (iterators w)))).
    fold c. rewrite <- Heq. apply elem_of_dom. exists Paired.
    apply lookup_insert_eq. }
  destruct (default_settings_lookup (PIter e) (PIter c))
    as (Hde & Hdc & Hsave & _).
  match goal with |- context [plot_body ?d _ ?w0] =>
    set (default := d) in *; set (w1 := w0) end.
  destruct (plot_loop_lockstep default e c Hde Hdc Hne layers Paired 0
              (subplots w1).1) as [Hok Hstop].
  { cbn. rewrite lookup_insert_ne by done. apply lookup_insert_eq. }
  { cbn. apply lookup_insert_eq. }
  case_decide as Hlen.
  - destruct (Hok Hlen) as (w' & Hrun & _).
    by rewrite (plot_body_no_save _ _ _ _ _ Hrun Hsave).
  - specialize (Hstop ltac:(lia)).
    destruct (plot_loop default layers 0 (subplots w1).1) as [w' r] eqn:Hrun.
    cbn in Hstop. subst r.
    rewrite (plot_body_loop_raises _ _ _ _ _ Hrun). cbn [fst].
    by apply plot_loop_keeps in Hrun as (_ & -> & _).
Qed.

(** X13: no figure is saved unless the caller supplies a save path:
    without one the saved files are the same after the call, whether it
    completes or raises. *)
Theorem plot_shapefile_no_save (layers : list Layer) gs w :
  supplied gs "save" = None ->
  saved (plot_shapefile Paired layers gs w).1 = saved w.
Proof.
  intros Hnone. rewrite plot_shapefile_unfold.
  match goal with |- context [plot_body ?d _ ?w0] =>
    set (default := d); set (w1 := w0) end.
  assert (Hsave : default !! "save" = Some (PStr "")).
  { unfold default. rewrite merge_settings_lookup, Hnone.
    apply default_settings_lookup. }
  destruct (plot_loop default layers 0 (subplots w1).1) as [w' [e|i]] eqn:Hrun.
  - rewrite (plot_body_loop_raises _ _ _ _ _ Hrun). cbn [fst].
    by apply plot_loop_keeps in Hrun as (_ & _ & ->).
  - rewrite (plot_body_no_save _ _ _ _ _ Hrun Hsave). cbn [fst saved].
    by apply plot_loop_keeps in Hrun as (_ & _ & ->).
Qed.

(** X14: with a save path and no format supplied, a call that completes
    has saved, under that path and as png, exactly the artists on the axes;
    grid lines are off and the style is whitegrid. *)
Theorem plot_shapefile_saves_figure (layers : list Layer) gs w p :
  supplied gs "save" = Some (PStr p) ->
  p <> "" ->
  supplied gs "format" = None ->
  (plot_shapefile Paired layers gs w).2 = inr tt ->
  saved (plot_shapefile Paired layers gs w).1
    = <[p := ("png", axes (plot_shapefile Paired layers gs w).1)]> (saved w) /\
  grid (plot_shapefile Paired layers gs w).1 = false /\
  style (plot_shapefile Paired layers gs w).1 = "whitegrid".
Proof.
  intros Hp Hne Hfmt. rewrite plot_shapefile_unfold.
  match goal with |- context [plot_body ?d _ ?w0] =>
    set (default := d); set (w1 := w0) end.
  assert (Hsave : default !! "save" = Some (PStr p)).
  { unfold default. by rewrite merge_settings_lookup, Hp. }
  assert (Hformat : default !! "format" = Some (PStr "png")).
  { unfold default. rewrite merge_settings_lookup, Hfmt.
    apply default_settings_lookup. }
  destruct (plot_loop default layers 0 (subplots w1).1) as [w' [e|i]] eqn:Hrun.
  - rewrite (plot_body_loop_raises _ _ _ _ _ Hrun). discriminate.
  - rewrite (plot_body_save _ _ _ _ _ _ _ Hrun Hsave Hne Hformat).
    intros _. cbn.
    by apply plot_loop_keeps in Hrun as (_ & _ & ->).
Qed.

(** X15: a literal string supplied for the edge colour is the edge colour
    of every layer drawn, and likewise for the fill colour, whatever else
    the settings hold. *)
Theorem plot_shapefile_literal_colors (layers : list Layer) gs w lit :
  (supplied gs "edgecolor" = Some (PStr lit) ->
   Forall (fun a => art_edgecolor a = PStr lit)
     (axes (plot_shapefile Paired layers gs w).1)) /\
  (supplied gs "color" = Some (PStr lit) ->
   Forall (fun a => art_color a = PStr lit)
     (axes (plot_shapefile Paired layers gs w).1)).
Proof.
  rewrite plot_shapefile_unfold.
  match goal with |- context [plot_body ?d _ ?w0] =>
    set (default := d); set (w1 := w0) end.
  rewrite plot_body_axes.
  destruct (plot_loop_literal default layers 0 (subplots w1).1)
    as (new & -> & Hedges & Hcols). cbn [subplots fst axes app].
  split; intros Hsup.
  - apply Hedges. unfold default. by rewrite merge_settings_lookup, Hsup.
  - apply Hcols. unfold default. by rewrite merge_settings_lookup, Hsup.
Qed.

(** X16: when the caller passes one iterator object for both the edge and
    the fill colour, the two draw from the same store: each layer takes two
    successive items, the first for its edge and the second for its fill,
    and the call raises [StopIteration] as soon as a layer cannot have
    both. *)
Theorem plot_shapefile_shared_iterator (layers : list Layer) gs w it l :
  supplied gs "edgecolor" = Some (PIter it) ->
  supplied gs "color" = Some (PIter it) ->
  supplied gs "save" = None ->
  iterators w !! it = Some l ->
  (2 * length layers <= length l ->
   (plot_shapefile Paired layers gs w).2 = inr tt /\
   axes (plot_shapefile Paired layers gs w).1 = alternating layers l) /\
  (length l < 2 * length layers ->
   (plot_shapefile Paired layers gs w).2 = inl StopIteration).
Proof.
  intros Hedge Hcol Hnone Hit. rewrite plot_shapefile_unfold.
  set (e := fresh (dom (iterators w))).
  set (c := fresh (dom (<[e := Paired]> (iterators w)))).
  match goal with |- context [plot_body ?d _ ?w0] =>
    set (default := d); set (w1 := w0) end.
  assert (Hde : default !! "edgecolor" = Some (PIter it)).
  { unfold default. by rewrite merge_settings_lookup, Hedge. }
  assert (Hdc : default !! "color" = Some (PIter it)).
  { unfold default. by rewrite merge_settings_lookup, Hcol. }
  assert (Hsave : default !! "save" = Some (PStr "")).
  { unfold default. rewrite merge_settings_lookup, Hnone.
    apply default_settings_lookup. }
  assert (Hlive : iterators (subplots w1).1 !! it = Some l).
  { cbn. rewrite !lookup_insert_ne; [done|..].
    - intros <-. apply (is_fresh (dom (iterators w))).
      apply elem_of_dom. by exists l.
    - intros <-. apply (is_fresh (dom (<[e := Paired]> (iterators w)))).
      apply elem_of_dom. exists l. rewrite lookup_insert_ne; [done|].
      intros Heq. apply (is_fresh (dom (iterators w))). fold e.
      rewrite Heq. apply elem_of_dom. by exists l. }
  destruct (plot_loop_shared default it Hde Hdc layers l 0 (subplots w1).1 Hlive)
    as [Hok Hstop].
  split; intros Hlen.
  - destruct (Hok Hlen) as (w' & Hrun & Hax).
    rewrite (plot_body_no_save _ _ _ _ _ Hrun Hsave). cbn. by rewrite Hax.
  - specialize (Hstop Hlen).
    destruct (plot_loop default layers 0 (subplots w1).1) as [w' r] eqn:Hrun.
    cbn in Hstop. subst r. by rewrite (plot_body_loop_raises _ _ _ _ _ Hrun).
Qed.

(** X17: a colour given as anything but a string or an iterator, such as an
    RGB tuple, is handed to [next] and makes the call raise [TypeError] at
    the first layer. *)
Theorem plot_shapefile_tuple_color (layers : list Layer) gs w col :
  supplied gs "edgecolor" = Some (PColor col) ->
  layers <> [] ->
  (plot_shapefile Paired layers gs w).2
  = inl (TypeError "object is not an iterator").
Proof.
  intros Hedge Hne. rewrite plot_shapefile_unfold.
  match goal with |- context [plot_body ?d _ ?w0] =>
    set (default := d); set (w1 := w0) end.
  assert (Hde : default !! "edgecolor" = Some (PColor col)).
  { unfold default. by rewrite merge_settings_lookup, Hedge. }
  destruct layers as [|s layers]; [done|].
  erewrite plot_body_loop_raises; [done|].
  cbn [plot_loop]. erewrite bind_err; [done|].
  unfold pick, dict_get, bind. by rewrite Hde.
Qed.

End PlotMore.

Section PlotPalette.

Context {Layer Color : Type} (Paired : list Color).

(** X11: with the default settings and no more layers than the palette has
    colours, every call starts at the first colour of the palette, whatever
    was plotted before: the i-th layer is drawn with the i-th colour, for
    its fill and for its edge, and the call completes. *)
Theorem plot_shapefile_palette_order (layers : list Layer)
    (w : @PlotWorld Layer Color) :
  length layers <= length Paired ->
  (plot_shapefile Paired layers None w).2 = inr tt /\
  axes (plot_shapefile Paired layers None w).1
    = zip_with paired_artist layers Paired.
Proof. apply plot_shapefile_default_within_palette. Qed.

End PlotPalette.

Lemma plot_shapefile_palette_order_witness :
  (plot_shapefile Ref.Paired12 [1; 2; 3] None Ref.plot0).2 = inr tt /\
  axes (plot_shapefile Ref.Paired12 [1; 2; 3] None Ref.plot0).1
    = zip_with paired_artist [1; 2; 3] Ref.Paired12.
Proof.
  apply (plot_shapefile_palette_order Ref.Paired12 [1; 2; 3] Ref.plot0).
  vm_compute. lia.
Defined.

Lemma plot_shapefile_no_save_witness :
  saved (plot_shapefile Ref.Paired12 [1; 2; 3]
           (Some [("edgecolor", PStr "k")]) Ref.plot0).1
  = saved Ref.plot0.
Proof.
  apply (plot_shapefile_no_save Ref.Paired12 [1; 2; 3]
           (Some [("edgecolor", PStr "k")]) Ref.plot0).
  vm_compute. reflexivity.
Defined.

Lemma plot_shapefile_saves_figure_witness :
  saved (plot_shapefile Ref.Paired12 [1; 2]
           (Some [("save", PStr "map.png")]) Ref.plot0).1
    = <["map.png" :=
          ("png",
           axes (plot_shapefile Ref.Paired12 [1; 2]
                   (Some [("save", PStr "map.png")]) Ref.plot0).1)]>
        (saved Ref.plot0) /\
  grid (plot_shapefile Ref.Paired12 [1; 2]
          (Some [("save", PStr "map.png")]) Ref.plot0).1 = false /\
  style (plot_shapefile Ref.Paired12 [1; 2]
           (Some [("save", PStr "map.png")]) Ref.plot0).1 = "whitegrid".
Proof.
  apply (plot_shapefile_saves_figure Ref.Paired12 [1; 2]
           (Some [("save", PStr "map.png")]) Ref.plot0 "map.png").
  - vm_compute. reflexivity.
  - discriminate.
  - vm_compute. reflexivity.
  - vm_compute. reflexivity.
Defined.

Lemma plot_shapefile_literal_colors_witness :
  Forall (fun a => art_edgecolor a = PStr "k")
    (axes (plot_shapefile Ref.Paired12 [1; 2]
             (Some [("color", PStr "w"); ("edgecolor", PStr "k")])
             Ref.plot0).1).
Proof.
  apply (plot_shapefile_literal_colors Ref.Paired12 [1; 2]
           (Some [("color", PStr "w"); ("edgecolor", PStr "k")])
           Ref.plot0 "k").
  vm_compute. reflexivity.
Defined.

Lemma plot_shapefile_shared_iterator_witness :
  (plot_shapefile Ref.Paired12 [1; 2]
     (Some [("edgecolor", PIter 7); ("color", PIter 7)]) Ref.plot1).2
    = inr tt /\
  axes (plot_shapefile Ref.Paired12 [1; 2]
          (Some [("edgecolor", PIter 7); ("color", PIter 7)]) Ref.plot1).1
    = [mkArtist 1 (PColor "green") (PColor "red");
       mkArtist 2 (PColor "black") (PColor "blue")].
Proof.
  apply (plot_shapefile_shared_iterator Ref.Paired12 [1; 2]
           (Some [("edgecolor", PIter 7); ("color", PIter 7)]) Ref.plot1 7
           ["red"; "green"; "blue"; "black"]).
  - vm_compute. reflexivity.
  - vm_compute. reflexivity.
  - vm_compute. reflexivity.
  - vm_compute. reflexivity.
  - vm_compute. lia.
Defined.

Lemma plot_shapefile_tuple_color_witness :
  (plot_shapefile Ref.Paired12 [1]
     (Some [("edgecolor", PColor "#000000")]) Ref.plot0).2
  = inl (TypeError "object is not an iterator").
Proof.
  apply (plot_shapefile_tuple_color Ref.Paired12 [1]
           (Some [("edgecolor", PColor "#000000")]) Ref.plot0 "#000000").
  - vm_compute. reflexivity.
  - discriminate.
Defined.

(** ** peel_geodatabase *)

Section GeodatabaseMore.

Context {Geom : Type} (to_csv : list (list (string * Value)) -> string).

Implicit Types (d : @Disk Geom) (c : @Collection Geom)
  (g : list (string * @Collection Geom)).

Lemma string_app_nil (x : string) : "" +:+ x = x.
Proof. reflexivity. Qed.

Lemma has_slash_app (a b : string) :
  has_slash (a +:+ b) = has_slash a || has_slash b.
Proof.
  induction a as [|ch a IH]; [done|].
  rewrite string_app_cons. cbn [has_slash]. by destruct (decide (ch = "/"%char)).
Qed.

(** The export of a layer whose name has no separator goes to the one
    output directory. *)
Lemma dirname_output_path n :
  has_slash n = false -> dirname (output_path n) = output_dir.
Proof.
  intros Hn.
  assert (Hend : forall ext, has_slash ext = false ->
            dirname ("./data/ACS2016/" +:+ n +:+ ext) = output_dir).
  { intros ext Hext. rewrite !string_app_cons, string_app_nil.
    assert (Hrest : has_slash (n +:+ ext) = false).
    { by rewrite has_slash_app, Hn, Hext. }
    cbn. by rewrite Hrest. }
  unfold output_path, shp_path, csv_path. case_decide; by apply Hend.
Qed.

(** With the output directory in place, the exports of plainly named layers
    can all be created. *)
Lemma exports_creatable_plain g d :
  output_dir ∈ dirs d ->
  (forall n, n ∈ map fst g -> has_slash n = false) ->
  exports_creatable g d.
Proof.
  intros Hdir Hplain n Hn. unfold can_create.
  rewrite (dirname_output_path n (Hplain n Hn)).
  apply bool_decide_eq_true. by right.
Qed.

(** X18: without a geodatabase at the fixed source path the export raises
    the reader's error before anything is written or printed. *)
Theorem peel_geodatabase_missing_source d :
  disk d !! datasrc_path = None ->
  peel_geodatabase to_csv d = (d, inl (FileNotFoundError datasrc_path)).
Proof.
  intros Hnone. unfold peel_geodatabase. erewrite bind_err; [done|].
  unfold listlayers. by rewrite Hnone.
Qed.

(** X19: when the directory of every export exists, the export leaves the
    geodatabase it reads as it was (no export path coincides with the
    source path) and prints one progress line per layer, in the order the
    layers are listed. *)
Theorem peel_geodatabase_source_and_log d g :
  disk d !! datasrc_path = Some (GdbFile g) ->
  exports_creatable g d ->
  disk (peel_geodatabase to_csv d).1 !! datasrc_path = Some (GdbFile g) /\
  printed (peel_geodatabase to_csv d).1
    = (printed d ++ map progress_line (map fst g))%list.
Proof.
  intros Hsrc Hdirs.
  destruct (peel_geodatabase_run to_csv d g Hsrc Hdirs)
    as (d' & -> & _ & Hframe & _ & Hlog).
  cbn [fst]. split; [|done].
  rewrite Hframe; [done|]. intros n _ Heq.
  by apply (output_path_not_datasrc n).
Qed.

(** X20: when the directory of every export exists, the export can be
    rerun: a second run on the disk the first run left behind completes
    too and rewrites every export with the same content, so the disk is the
    same after two runs as after one. *)
Theorem peel_geodatabase_rerun d g :
  disk d !! datasrc_path = Some (GdbFile g) ->
  exports_creatable g d ->
  (peel_geodatabase to_csv d).2 = inr tt /\
  (peel_geodatabase to_csv (peel_geodatabase to_csv d).1).2 = inr tt /\
  disk (peel_geodatabase to_csv (peel_geodatabase to_csv d).1).1
    = disk (peel_geodatabase to_csv d).1.
Proof.
  intros Hsrc Hdirs.
  destruct (peel_geodatabase_run to_csv d g Hsrc Hdirs)
    as (d1 & -> & Hout1 & Hframe1 & Hdirs1 & _).
  cbn [fst snd]. split; [done|].
  assert (Hsrc1 : disk d1 !! datasrc_path = Some (GdbFile g)).
  { rewrite Hframe1; [done|]. intros n _ Heq.
    by apply (output_path_not_datasrc n). }
  assert (Hcreat1 : exports_creatable g d1).
  { intros n Hn. rewrite (can_create_same_dirs _ _ _ Hdirs1). by apply Hdirs. }
  destruct (peel_geodatabase_run to_csv d1 g Hsrc1 Hcreat1)
    as (d2 & -> & Hout2 & Hframe2 & _ & _).
  split; [done|]. cbn [fst]. apply map_eq. intros p.
  destruct (decide (p ∈ map output_path (map fst g))) as [Hin|Hnot].
  - apply list_elem_of_fmap in Hin as (n & -> & Hn).
    destruct (find_layer_some g n Hn) as [c Hc].
    by rewrite (Hout1 n c Hn Hc), (Hout2 n c Hn Hc).
  - apply Hframe2. intros n Hn ->. apply Hnot.
    apply list_elem_of_fmap. by exists n.
Qed.

End GeodatabaseMore.

Lemma peel_geodatabase_missing_source_witness :
  peel_geodatabase Ref.to_csv
    ({| disk := ∅; dirs := ∅; printed := [] |} : @Disk Ref.Interval)
  = ({| disk := ∅; dirs := ∅; printed := [] |},
     inl (FileNotFoundError datasrc_path)).
Proof.
  apply (peel_geodatabase_missing_source Ref.to_csv
           {| disk := ∅; dirs := ∅; printed := [] |}).
  vm_compute. reflexivity.
Defined.

Lemma peel_geodatabase_source_and_log_witness :
  disk (peel_geodatabase Ref.to_csv Ref.disk0).1 !! datasrc_path
    = Some (GdbFile [("X19_INCOME", Ref.income_layer);
                     ("ACS_2016_5YR_BG_06_CALIFORNIA", Ref.bg_layer)]) /\
  printed (peel_geodatabase Ref.to_csv Ref.disk0).1
    = (printed Ref.disk0
       ++ map progress_line
            (map fst [("X19_INCOME", Ref.income_layer);
                      ("ACS_2016_5YR_BG_06_CALIFORNIA", Ref.bg_layer)]))%list.
Proof.
  apply (peel_geodatabase_source_and_log Ref.to_csv Ref.disk0).
  - vm_compute. reflexivity.
  - intros n Hn. cbn [map fst] in Hn.
    apply elem_of_cons in Hn as [->|Hn]; [vm_compute; reflexivity|].
    apply list_elem_of_singleton in Hn as ->. vm_compute. reflexivity.
Defined.

Lemma peel_geodatabase_rerun_witness :
  (peel_geodatabase Ref.to_csv Ref.disk0).2 = inr tt /\
  (peel_geodatabase Ref.to_csv
     (peel_geodatabase Ref.to_csv Ref.disk0).1).2 = inr tt /\
  disk (peel_geodatabase Ref.to_csv
          (peel_geodatabase Ref.to_csv Ref.disk0).1).1
    = disk (peel_geodatabase Ref.to_csv Ref.disk0).1.
Proof.
  apply (peel_geodatabase_rerun Ref.to_csv Ref.disk0
           [("X19_INCOME", Ref.income_layer);
            ("ACS_2016_5YR_BG_06_CALIFORNIA", Ref.bg_layer)]).
  - vm_compute. reflexivity.
  - intros n Hn. cbn [map fst] in Hn.
    apply elem_of_cons in Hn as [->|Hn]; [vm_compute; reflexivity|].
    apply list_elem_of_singleton in Hn as ->. vm_compute. reflexivity.
Defined.

(** ** show_image *)

Section RasterMore.

Implicit Types (a : list (list (list Z))) (px : list Z) (s : Screen).

Lemma has_shape_displayable_bands a h w n :
  has_shape a h w n -> n = 3 \/ n = 4 -> displayable (Arr3 a) = true.
Proof.
  intros [_ Hrows] Hn. cbn. apply forallb_forall. intros row Hrow.
  rewrite Forall_forall in Hrows.
  apply list_elem_of_In, Hrows in Hrow as [_ Hpx].
  apply forallb_forall. intros px Hin.
  rewrite Forall_forall in Hpx. apply list_elem_of_In, Hpx in Hin as ->.
  by destruct Hn as [-> | ->].
Qed.

Lemma has_shape_not_displayable a h w n :
  has_shape a h w n -> 0 < h -> 0 < w -> n <> 3 -> n <> 4 ->
  displayable (Arr3 a) = false.
Proof.
  intros [Hh Hrows] Hh0 Hw0 H3 H4.
  destruct a as [|row a]; [cbn in Hh; lia|].
  apply Forall_cons in Hrows as [[Hw Hpx] _].
  destruct row as [|px row]; [cbn in Hw; lia|].
  apply Forall_cons in Hpx as [Hlen _]. cbn. rewrite Hlen.
  destruct (Nat.eqb_spec n 3); [done|]. destruct (Nat.eqb_spec n 4); done.
Qed.

(** Pixels of three bands are their own first three bands. *)
Lemma bands_to_three_id a h w :
  has_shape a h w 3 -> map (map (take 3)) a = a.
Proof.
  intros [_ Hrows]. induction Hrows as [|row a [_ Hpx] _ IH]; [done|].
  cbn [map]. rewrite IH. f_equal.
  induction Hpx as [|px row Hlen _ IHrow]; [done|].
  cbn [map]. rewrite IHrow. f_equal. apply take_ge. lia.
Qed.

(** The whole of [show_image] on a three-dimensional array. *)
Lemma show_image_spec fp save_path infrared s a :
  images s !! fp = Some (Arr3 a) ->
  show_image fp save_path infrared s =
    let a' := if infrared then map (map (drop 1)) a
              else map (map (take 3)) a in
    if displayable (Arr3 a') then
      ({| images := images s; canvas := Some (Arr3 a');
          figures := if decide (save_path = "") then figures s
                     else <[save_path := Some (Arr3 a')]> (figures s) |},
       inr tt)
    else
      ({| images := images s; canvas := None; figures := figures s |},
       inl (TypeError "Invalid shape for image data")).
Proof.
  intros Hfile. unfold show_image, bind, image_open, lift. rewrite Hfile.
  cbv zeta.
  destruct infrared; cbn [select_bands bands_from bands_to new_figure bands_all];
    unfold imshow;
    (match goal with |- context [displayable ?x] =>
       destruct (displayable x) end; [|done]);
    by destruct (decide (save_path = "")).
Qed.

Lemma show_image_no_file fp save_path infrared s :
  images s !! fp = None ->
  show_image fp save_path infrared s = (s, inl (FileNotFoundError fp)).
Proof.
  intros Hnone. unfold show_image. erewrite bind_err; [done|].
  unfold image_open. by rewrite Hnone.
Qed.

Lemma show_image_no_band_axis fp save_path infrared s (a2 : list (list Z)) :
  images s !! fp = Some (Arr2 a2) ->
  show_image fp save_path infrared s
  = (s, inl (IndexError "too many indices for array")).
Proof.
  intros Hfile. unfold show_image.
  assert (Hopen : image_open fp s = (s, inr (Arr2 a2))).
  { unfold image_open. by rewrite Hfile. }
  rewrite (bind_ok _ _ _ _ _ Hopen). erewrite bind_err; [done|].
  by destruct infrared.
Qed.

(** X21: a path that holds no image makes [show_image] raise the reader's
    error; no figure is created and nothing is saved. *)
Theorem show_image_missing_file fp save_path infrared s :
  images s !! fp = None ->
  show_image fp save_path infrared s = (s, inl (FileNotFoundError fp)).
Proof. apply show_image_no_file. Qed.

(** X22: a single-band image decodes to a two-dimensional array, and the
    three-index band slice raises [IndexError] on it in either mode, before
    any figure is created. *)
Theorem show_image_two_dimensional fp save_path infrared s (a2 : list (list Z)) :
  images s !! fp = Some (Arr2 a2) ->
  show_image fp save_path infrared s
  = (s, inl (IndexError "too many indices for array")).
Proof. apply show_image_no_band_axis. Qed.

(** X23: a three-band image shown without [infrared] is displayed as it
    is: the array on the canvas is the decoded array itself. *)
Theorem show_image_rgb_unchanged fp save_path s a h w :
  images s !! fp = Some (Arr3 a) ->
  has_shape a h w 3 ->
  (show_image fp save_path false s).2 = inr tt /\
  canvas (show_image fp save_path false s).1 = Some (Arr3 a).
Proof.
  intros Hfile Hshape. rewrite (show_image_spec _ _ _ _ _ Hfile). cbv zeta.
  rewrite (bands_to_three_id _ _ _ Hshape).
  by rewrite (has_shape_displayable_bands _ _ _ _ Hshape (or_introl eq_refl)).
Qed.

(** X24: without [infrared], an image of any number of bands from three up
    is displayed through its first three bands: the array on the canvas has
    exactly three bands and its pixel values are bands 0, 1, 2 of the
    source. *)
Theorem show_image_first_three_bands fp save_path s a h w n :
  images s !! fp = Some (Arr3 a) ->
  has_shape a h w n ->
  3 <= n ->
  exists a',
    (show_image fp save_path false s).2 = inr tt /\
    canvas (show_image fp save_path false s).1 = Some (Arr3 a') /\
    has_shape a' h w 3 /\
    forall i j k, k < 3 -> pixel a' i j k = pixel a i j k.
Proof.
  intros Hfile Hshape Hn. rewrite (show_image_spec _ _ _ _ _ Hfile). cbv zeta.
  assert (Hthree : has_shape (map (map (take 3)) a) h w 3).
  { eapply has_shape_map; [|exact Hshape].
    intros px <-. rewrite length_take. lia. }
  rewrite (has_shape_displayable_bands _ _ _ _ Hthree (or_introl eq_refl)).
  eexists. split; [done|]. split; [done|]. split; [exact Hthree|].
  intros i j k Hk. rewrite pixel_bands_to. by rewrite decide_True.
Qed.

(** X25: with [infrared], a non-empty three-band image is not displayed:
    the slice keeps two bands, which the display does not take, so the call
    raises [TypeError] after creating an empty figure, and nothing is
    saved. *)
Theorem show_image_infrared_band_count fp save_path s a h w :
  images s !! fp = Some (Arr3 a) ->
  has_shape a h w 3 ->
  0 < h -> 0 < w ->
  show_image fp save_path true s
  = ({| images := images s; canvas := None; figures := figures s |},
     inl (TypeError "Invalid shape for image data")).
Proof.
  intros Hfile Hshape Hh Hw. rewrite (show_image_spec _ _ _ _ _ Hfile).
  cbv zeta.
  assert (Hdrop : has_shape (map (map (drop 1)) a) h w 2).
  { eapply has_shape_map; [|exact Hshape].
    intros px Hpx. rewrite length_drop. lia. }
  by rewrite (has_shape_not_displayable _ _ _ _ Hdrop) by lia.
Qed.



End RasterMore.

Lemma show_image_missing_file_witness :
  show_image "absent.tif" "" false Ref.screen1
  = (Ref.screen1, inl (FileNotFoundError "absent.tif")).
Proof.
  apply (show_image_missing_file "absent.tif" "" false Ref.screen1).
  vm_compute. reflexivity.
Defined.

Lemma show_image_two_dimensional_witness :
  show_image "gray.png" "gray_view.png" false Ref.screen1
  = (Ref.screen1, inl (IndexError "too many indices for array")).
Proof.
  apply (show_image_two_dimensional "gray.png" "gray_view.png" false
           Ref.screen1 Ref.gray).
  vm_compute. reflexivity.
Defined.

Lemma show_image_rgb_unchanged_witness :
  (show_image "rgb.png" "" false Ref.screen1).2 = inr tt /\
  canvas (show_image "rgb.png" "" false Ref.screen1).1 = Some (Arr3 Ref.rgb).
Proof.
  apply (show_image_rgb_unchanged "rgb.png" "" Ref.screen1 Ref.rgb 1 1).
  - vm_compute. reflexivity.
  - split; [reflexivity|]. repeat constructor.
Defined.

Lemma show_image_first_three_bands_witness :
  exists a',
    (show_image "scene.tif" "" false Ref.screen1).2 = inr tt /\
    canvas (show_image "scene.tif" "" false Ref.screen1).1 = Some (Arr3 a') /\
    has_shape a' 1 2 3 /\
    forall i j k, k < 3 -> pixel a' i j k = pixel Ref.rgbn i j k.
Proof.
  apply (show_image_first_three_bands "scene.tif" "" Ref.screen1 Ref.rgbn 1 2 4).
  - vm_compute. reflexivity.
  - split; [reflexivity|]. repeat constructor.
  - lia.
Defined.

Lemma show_image_infrared_band_count_witness :
  show_image "rgb.png" "view.png" true Ref.screen1
  = ({| images := images Ref.screen1; canvas := None;
        figures := figures Ref.screen1 |},
     inl (TypeError "Invalid shape for image data")).
Proof.
  apply (show_image_infrared_band_count "rgb.png" "view.png" Ref.screen1
           Ref.rgb 1 1).
  - vm_compute. reflexivity.
  - split; [reflexivity|]. repeat constructor.
  - lia.
  - lia.
Defined.


